(** * Orchestration layer of the expense-management AI gateway

    A shallow embedding of [src/ai-services/main.py]: the FastAPI handlers
    that sit in front of the capability providers.  The providers
    ([services.*]), the pydantic models ([models.*]) and the web runtime are
    collaborators of the file; they enter the development as an interface
    ([Models], [Services]) over which every handler is parametric.

    Handlers are written in a state-and-exception monad over a [World] that
    holds what the handlers touch: the providers' state, the files under
    [/tmp], the log, the clock, the asyncio tasks created so far and a trace
    of the observable events. *)

From stdpp Require Import base option list gmap strings pretty.
From Stdlib Require Import ZArith Lia.

Set Warnings "-register-all,-clear-no-such-hyp".

Open Scope string_scope.
Open Scope Z_scope.

(** ** Values and exceptions *)

(** The JSON-like values the handlers receive and return.  [VTime t] is a
    [datetime] for the instant [t] (seconds), [VIso t] the text that
    [datetime.isoformat()] gives for it. *)
Inductive value : Type :=
| VNone
| VBool (b : bool)
| VInt (z : Z)
| VStr (s : string)
| VTime (t : Z)
| VIso (t : Z)
| VList (l : list value)
| VDict (items : list (string * value)).

(** [d[k]] on a dict literal: the first item with key [k]. *)
Fixpoint dict_get (k : string) (items : list (string * value)) : option value :=
  match items with
  | [] => None
  | (k', v) :: rest => if String.eqb k k' then Some v else dict_get k rest
  end.

(** Python exceptions, as far as the handlers tell them apart: the
    [HTTPException] they raise themselves, the validation error with which
    FastAPI rejects a request before the handler runs, and any other
    [Exception] a collaborator raises, with its class name and [str]. *)
Inductive exn : Type :=
| HTTPException (status_code : Z) (detail : string)
| RequestValidationError (param : string)
| Error (cls : string) (msg : string).

(** [str(e)]. *)
Definition str (e : exn) : string :=
  match e with
  | HTTPException c d => pretty c ++ ": " ++ d
  | RequestValidationError p => "validation error for " ++ p
  | Error _ msg => msg
  end.

Inductive result (A : Type) : Type :=
| Ok (a : A)
| Raise (e : exn).
Arguments Ok {A} a.
Arguments Raise {A} e.

Definition is_Ok {A} (r : result A) : bool :=
  match r with Ok _ => true | Raise _ => false end.

(** ** The collaborators *)

(** The six capability providers' operations that the modelled handlers
    call. *)
Inductive capability : Type := Categorization | FraudDetection | Predictions.

Inductive provider_op : Type :=
| OpPredictCategory
| OpBatchPredict
| OpAnalyzeExpense
| OpPredictBudget
| OpValidateReceipt
| OpProcessReceipt
| OpRetrain (c : capability).

#[global] Instance capability_eq_dec : EqDecision capability.
Proof. solve_decision. Defined.
#[global] Instance provider_op_eq_dec : EqDecision provider_op.
Proof. solve_decision. Defined.

(** [models.expense_models] and [models.receipt_models]: the types are
    opaque; [ExpenseData_init] is the constructor call on the received data,
    which raises when the data does not validate, and the [_dict] functions are [.dict()]. *)
Class Models : Type := {
  ExpenseData : Type;
  CategoryPrediction : Type;
  FraudAlert : Type;
  PredictionResult : Type;
  ValidationResult : Type;
  OCRResult : Type;
  ExpenseData_init : value -> result ExpenseData;
  CategoryPrediction_dict : CategoryPrediction -> value;
  FraudAlert_dict : FraudAlert -> value
}.

Abbreviation bytes := (list Byte.byte).

(** The module-level service objects.  Each operation may fail and may
    change the provider's own state [P]; the two receipt operations are given
    a path and read the files. *)
Class Services `{Models} (P : Type) : Type := {
  predict_category : ExpenseData -> P -> result CategoryPrediction * P;
  batch_predict : list ExpenseData -> P -> result (list CategoryPrediction) * P;
  analyze_expense : ExpenseData -> option (list ExpenseData) -> P -> result FraudAlert * P;
  svc_predict_budget : list ExpenseData -> Z -> P -> result PredictionResult * P;
  svc_validate_receipt : string -> gmap string bytes -> P -> result ValidationResult * P;
  process_receipt : string -> bool -> gmap string bytes -> P -> result OCRResult * P;
  retrain : capability -> list value -> P -> result unit * P
}.

(** ** The world *)

Inductive level : Type := INFO | ERROR.

(** What a WebSocket peer delivers to one [receive_json]: a text frame that
    is JSON, a text frame that is not, or the disconnect message. *)
Inductive frame : Type :=
| TextJson (data : value)
| TextInvalid (raw : string)
| Disconnect.

Inductive event : Type :=
| ECall (op : provider_op)
| EOpen (path : string)
| ERemove (path : string)
| ECreateTask
| EAccept
| EReceive (f : frame)
| ESend (msg : value)
| EClose.

(** The coroutine [retrain_models_background(training_data)] as a task of the
    event loop: created, suspended in the [await] of one provider's
    [retrain], or finished. *)
Inductive stage : Type :=
| Created
| Awaiting (c : capability)
| Finished.

#[global] Instance stage_eq_dec : EqDecision stage.
Proof. solve_decision. Defined.

Record task : Type := Task {
  training_data : gmap string (list value);
  at_stage : stage
}.

Record World (P : Type) : Type := mkWorld {
  prov : P;
  files : gmap string bytes;
  logs : list (level * string);
  clock : Z;
  tasks : list task;
  trace : list event
}.
Arguments mkWorld {P}.
Arguments prov {P}.
Arguments files {P}.
Arguments logs {P}.
Arguments clock {P}.
Arguments tasks {P}.
Arguments trace {P}.

Section Monad.
Context {P : Type}.

(** A handler: runs on a world, returns or raises, and leaves a world. *)
Definition M (A : Type) : Type := World P -> result A * World P.

Definition ret {A} (a : A) : M A := fun w => (Ok a, w).

Definition raise {A} (e : exn) : M A := fun w => (Raise e, w).

Definition bind {A B} (m : M A) (k : A -> M B) : M B :=
  fun w =>
    match m w with
    | (Ok a, w') => k a w'
    | (Raise e, w') => (Raise e, w')
    end.

(** [try: body except Exception as e: handler e]. *)
Definition try_except {A} (body : M A) (handler : exn -> M A) : M A :=
  fun w =>
    match body w with
    | (Ok a, w') => (Ok a, w')
    | (Raise e, w') => handler e w'
    end.

Definition set_prov (p : P) (w : World P) : World P :=
  mkWorld p (files w) (logs w) (clock w) (tasks w) (trace w).
Definition set_files (fs : gmap string bytes) (w : World P) : World P :=
  mkWorld (prov w) fs (logs w) (clock w) (tasks w) (trace w).
Definition add_log (l : level) (msg : string) (w : World P) : World P :=
  mkWorld (prov w) (files w) (logs w ++ [(l, msg)])%list (clock w) (tasks w) (trace w).
Definition set_tasks (ts : list task) (w : World P) : World P :=
  mkWorld (prov w) (files w) (logs w) (clock w) ts (trace w).
Definition add_event (e : event) (w : World P) : World P :=
  mkWorld (prov w) (files w) (logs w) (clock w) (tasks w) (trace w ++ [e])%list.

Definition logger_info (msg : string) : M unit :=
  fun w => (Ok tt, add_log INFO msg w).
Definition logger_error (msg : string) : M unit :=
  fun w => (Ok tt, add_log ERROR msg w).

(** [datetime.utcnow()]. *)
Definition utcnow : M Z := fun w => (Ok (clock w), w).

(** [await service.op(...)]: the call is recorded, the provider's state
    moves, the outcome is the provider's. *)
Definition call {A} (op : provider_op) (f : P -> result A * P) : M A :=
  fun w =>
    let '(r, p') := f (prov w) in
    (r, set_prov p' (add_event (ECall op) w)).

(** The same for an operation that reads the files. *)
Definition call_fs {A} (op : provider_op)
    (f : gmap string bytes -> P -> result A * P) : M A :=
  fun w => call op (f (files w)) w.

(** [open(path, "wb")]: creates the file or truncates it. *)
Definition open_wb (path : string) : M unit :=
  fun w => (Ok tt, set_files (<[path := []]> (files w)) (add_event (EOpen path) w)).

(** [buffer.write(content)] on the file opened at [path]. *)
Definition buffer_write (path : string) (content : bytes) : M unit :=
  fun w =>
    (Ok tt, set_files (<[path := (default [] (files w !! path) ++ content)%list]> (files w)) w).

(** [os.remove(path)]: raises when there is no such file. *)
Definition os_remove (path : string) : M unit :=
  fun w =>
    match files w !! path with
    | Some _ => (Ok tt, set_files (delete path (files w)) (add_event (ERemove path) w))
    | None =>
        (Raise (Error "FileNotFoundError"
                  ("[Errno 2] No such file or directory: '" ++ path ++ "'")), w)
    end.

(** [asyncio.create_task(retrain_models_background(training_data))]: the
    task joins the loop's tasks, not yet run. *)
Definition create_task (td : gmap string (list value)) : M unit :=
  fun w => (Ok tt, set_tasks (tasks w ++ [Task td Created])%list (add_event ECreateTask w)).

End Monad.

Notation "x <- m ;; k" := (bind m (fun x => k))
  (at level 100, m at next level, right associativity).
Notation "m ;;; k" := (bind m (fun _ => k))
  (at level 100, right associativity).

(** ** The handlers of [main.py] *)

(** An uploaded file: the name the client suggests and the content. *)
Record UploadFile : Type := {
  filename : string;
  file_content : bytes
}.

(** A pydantic [Field(default=d, ge=lo, le=hi)] on an [int] parameter. *)
Record IntField : Type := {
  field_default : Z;
  field_ge : Z;
  field_le : Z
}.

Definition field_admits (f : IntField) (v : Z) : bool :=
  (field_ge f <=? v) && (v <=? field_le f).

(** The key under which a retraining payload addresses a provider. *)
Definition capability_key (c : capability) : string :=
  match c with
  | Categorization => "categorization"
  | FraudDetection => "fraud_detection"
  | Predictions => "predictions"
  end.

Section Handlers.
Context {models : Models} {P : Type} {svc : Services P}.

Local Abbreviation M := (@M P).

Definition lift {A} (r : result A) : M A := fun w => (r, w).

(** *** [GET /health] *)

Definition health_check : M value :=
  now <- utcnow ;;
  ret (VDict [
    ("status", VStr "healthy");
    ("timestamp", VIso now);
    ("version", VStr "1.0.0");
    ("services", VDict [
      ("categorization", VStr "active");
      ("fraud_detection", VStr "active");
      ("predictive_analytics", VStr "active");
      ("receipt_validation", VStr "active");
      ("auto_tagging", VStr "active");
      ("ocr", VStr "active")])]).

(** *** [POST /api/v1/batch-categorize] *)

Definition batch_categorize_expenses (expenses : list ExpenseData)
    : M (list CategoryPrediction) :=
  try_except
    (results <- call OpBatchPredict (batch_predict expenses) ;;
     logger_info ("Batch categorization completed for "
                  ++ pretty (length expenses) ++ " expenses") ;;;
     ret results)
    (fun e =>
     logger_error ("Batch categorization error: " ++ str e) ;;;
     raise (HTTPException 500 "Failed to process batch categorization")).

(** *** [POST /api/v1/predict-budget] *)

Definition prediction_months_field : IntField :=
  {| field_default := 3; field_ge := 1; field_le := 12 |}.

(** The handler's body. *)
Definition predict_budget (historical_data : list ExpenseData)
    (prediction_months : Z) : M PredictionResult :=
  try_except
    (result <- call OpPredictBudget
                 (svc_predict_budget historical_data prediction_months) ;;
     logger_info ("Budget prediction completed for "
                  ++ pretty prediction_months ++ " months") ;;;
     ret result)
    (fun e =>
     logger_error ("Budget prediction error: " ++ str e) ;;;
     raise (HTTPException 500 "Failed to predict budget")).

(** The request as the framework serves it: the parameter takes its
    default when absent, is checked against the bounds its declaration
    gives, and only then the body runs. *)
Definition predict_budget_request (historical_data : list ExpenseData)
    (prediction_months : option Z) : M PredictionResult :=
  let months := default (field_default prediction_months_field) prediction_months in
  if field_admits prediction_months_field months
  then predict_budget historical_data months
  else raise (RequestValidationError "prediction_months").

(** *** [POST /api/v1/validate-receipt] and [POST /api/v1/enhanced-ocr] *)

(** [f"/tmp/{file.filename}"]. *)
Definition file_path (file : UploadFile) : string := "/tmp/" ++ filename file.

Definition validate_receipt (file : UploadFile) : M ValidationResult :=
  try_except
    (let path := file_path file in
     open_wb path ;;;
     content <- ret (file_content file) ;;
     buffer_write path content ;;;
     result <- call_fs OpValidateReceipt (svc_validate_receipt path) ;;
     os_remove path ;;;
     logger_info ("Receipt validation completed for file: " ++ filename file) ;;;
     ret result)
    (fun e =>
     logger_error ("Receipt validation error: " ++ str e) ;;;
     raise (HTTPException 500 "Failed to validate receipt")).

Definition enhanced_ocr_processing (file : UploadFile) (enhance_image : bool)
    : M OCRResult :=
  try_except
    (let path := file_path file in
     open_wb path ;;;
     content <- ret (file_content file) ;;
     buffer_write path content ;;;
     result <- call_fs OpProcessReceipt (process_receipt path enhance_image) ;;
     os_remove path ;;;
     logger_info ("Enhanced OCR completed for file: " ++ filename file) ;;;
     ret result)
    (fun e =>
     logger_error ("Enhanced OCR error: " ++ str e) ;;;
     raise (HTTPException 500 "Failed to process OCR")).

(** *** [POST /api/v1/retrain-models] *)

Definition retrain_models (td : gmap string (list value)) : M value :=
  try_except
    (create_task td ;;;
     now <- utcnow ;;
     ret (VDict [
       ("status", VStr "retraining_started");
       ("estimated_completion", VTime (now + 2 * 3600));
       ("message", VStr "Model retraining initiated successfully")]))
    (fun e =>
     logger_error ("Model retraining error: " ++ str e) ;;;
     raise (HTTPException 500 "Failed to initiate model retraining")).

(** [if key in training_data: await service.retrain(training_data[key])]. *)
Definition retrain_if_present (c : capability) (td : gmap string (list value))
    : M unit :=
  match td !! capability_key c with
  | Some examples => call (OpRetrain c) (retrain c examples)
  | None => ret tt
  end.

(** The background coroutine, run from its first line to its last. *)
Definition retrain_models_background (td : gmap string (list value)) : M unit :=
  try_except
    (logger_info "Starting model retraining process..." ;;;
     retrain_if_present Categorization td ;;;
     retrain_if_present FraudDetection td ;;;
     retrain_if_present Predictions td ;;;
     logger_info "Model retraining completed successfully")
    (fun e => logger_error ("Background retraining error: " ++ str e)).

(** *** [WS /ws/real-time-analysis] *)

Definition accept : M unit := fun w => (Ok tt, add_event EAccept w).

(** [await websocket.receive_json()] when the peer delivers [f]. *)
Definition receive_json (f : frame) : M value :=
  fun w =>
    let w' := add_event (EReceive f) w in
    match f with
    | TextJson data => (Ok data, w')
    | TextInvalid raw => (Raise (Error "JSONDecodeError" raw), w')
    | Disconnect => (Raise (Error "WebSocketDisconnect" "1000"), w')
    end.

Definition send_json (msg : value) : M unit :=
  fun w => (Ok tt, add_event (ESend msg) w).

Definition close : M unit := fun w => (Ok tt, add_event EClose w).

(** One turn of the [while True] body. *)
Definition exchange (f : frame) : M unit :=
  data <- receive_json f ;;
  expense_data <- lift (ExpenseData_init data) ;;
  category <- call OpPredictCategory (predict_category expense_data) ;;
  fraud_alert <- call OpAnalyzeExpense (analyze_expense expense_data None) ;;
  now <- utcnow ;;
  send_json (VDict [
    ("category", CategoryPrediction_dict category);
    ("fraud_alert", FraudAlert_dict fraud_alert);
    ("timestamp", VIso now)]).

(** The loop over what the peer delivers, frame by frame; a peer with
    nothing more to deliver disconnects. *)
Fixpoint real_time_loop (inbound : list frame) : M unit :=
  match inbound with
  | [] => exchange Disconnect
  | f :: rest => exchange f ;;; real_time_loop rest
  end.

Definition websocket_real_time_analysis (inbound : list frame) : M unit :=
  accept ;;;
  try_except
    (real_time_loop inbound)
    (fun e => logger_error ("WebSocket error: " ++ str e) ;;; close).

End Handlers.

(** ** The event loop and the background tasks

    [asyncio] runs the tasks that [create_task] made one at a time, each
    until its next [await] that suspends; the only such points of
    [retrain_models_background] are the providers' [retrain] calls.  A task
    that is created is resumed for the first time in creation order; a task
    suspended in a provider is resumed when that provider completes, which
    is the provider's business. *)

Definition retrain_order : list capability :=
  [Categorization; FraudDetection; Predictions].

(** The capabilities that the coroutine still looks at after [c]. *)
Definition after (c : capability) : list capability :=
  match c with
  | Categorization => [FraudDetection; Predictions]
  | FraudDetection => [Predictions]
  | Predictions => []
  end.

(** The first capability of [todo] that the payload names: the one whose
    retraining the coroutine calls next. *)
Fixpoint next_target (td : gmap string (list value)) (todo : list capability)
    : option capability :=
  match todo with
  | [] => None
  | c :: rest =>
      match td !! capability_key c with
      | Some _ => Some c
      | None => next_target td rest
      end
  end.

Definition started (t : task) : bool := bool_decide (at_stage t <> Created).

Definition running (c : capability) (t : task) : bool :=
  bool_decide (at_stage t = Awaiting c).

Section EventLoop.
Context {models : Models} {P : Type} {svc : Services P}.

(** Runs the coroutine's [if key in training_data] tests for [todo] up to
    the first call, where it suspends, or to the end of the [try] body. *)
Fixpoint run_to_await (td : gmap string (list value)) (todo : list capability)
    (w : World P) : stage * World P :=
  match todo with
  | [] => (Finished, add_log INFO "Model retraining completed successfully" w)
  | c :: rest =>
      match td !! capability_key c with
      | Some _ => (Awaiting c, add_event (ECall (OpRetrain c)) w)
      | None => run_to_await td rest w
      end
  end.

(** Resumes a task: from its first line, or from the [await] it is
    suspended in, with the provider's outcome. *)
Definition resume (t : task) (w : World P) : option (stage * World P) :=
  let td := training_data t in
  match at_stage t with
  | Created =>
      Some (run_to_await td retrain_order
              (add_log INFO "Starting model retraining process..." w))
  | Awaiting c =>
      let '(r, p') := retrain c (default [] (td !! capability_key c)) (prov w) in
      let w' := set_prov p' w in
      match r with
      | Ok _ => Some (run_to_await td (after c) w')
      | Raise e =>
          Some (Finished,
                add_log ERROR ("Background retraining error: " ++ str e) w')
      end
  | Finished => None
  end.

(** The loop resumes the task at index [i]. *)
Definition step_task (i : nat) (w : World P) : option (World P) :=
  match tasks w !! i with
  | Some t =>
      match resume t w with
      | Some (st, w') =>
          Some (set_tasks (<[i := Task (training_data t) st]> (tasks w')) w')
      | None => None
      end
  | None => None
  end.

(** A task run alone until it finishes. *)
Fixpoint run_task (fuel : nat) (t : task) (w : World P) : stage * World P :=
  match fuel with
  | O => (at_stage t, w)
  | S n =>
      match resume t w with
      | Some (st, w') => run_task n (Task (training_data t) st) w'
      | None => (at_stage t, w)
      end
  end.

(** What the process does next: serve a retraining submission, start the
    oldest task not yet started, or resume a task whose provider call
    completes. *)
Inductive loop_step : World P -> World P -> Prop :=
| step_submit td w :
    loop_step w (snd (retrain_models td w))
| step_start i t w w' :
    tasks w !! i = Some t ->
    at_stage t = Created ->
    (forall j t', (j < i)%nat -> tasks w !! j = Some t' -> at_stage t' <> Created) ->
    step_task i w = Some w' ->
    loop_step w w'
| step_complete i t c w w' :
    tasks w !! i = Some t ->
    at_stage t = Awaiting c ->
    step_task i w = Some w' ->
    loop_step w w'.

Definition reachable (w0 w : World P) : Prop := rtc loop_step w0 w.

(** Tasks [i] and [j] are both inside the retraining of [c]. *)
Definition both_running (c : capability) (i j : nat) (w : World P) : Prop :=
  i <> j /\
  exists ti tj, tasks w !! i = Some ti /\ tasks w !! j = Some tj /\
                running c ti = true /\ running c tj = true.

(** The started tasks are a prefix of the tasks in creation order. *)
Definition started_prefix (ts : list task) : Prop :=
  forall i j ti tj, (i < j)%nat -> ts !! i = Some ti -> ts !! j = Some tj ->
                    started tj = true -> started ti = true.

End EventLoop.

(** ** Reading traces *)

Definition is_receive (e : event) : bool :=
  match e with EReceive _ => true | _ => false end.

Definition is_send (e : event) : bool :=
  match e with ESend _ => true | _ => false end.

Definition is_provider_call (e : event) : bool :=
  match e with ECall _ => true | _ => false end.

Definition is_remove (e : event) : bool :=
  match e with ERemove _ => true | _ => false end.

Fixpoint count (p : event -> bool) (evs : list event) : nat :=
  match evs with
  | [] => O
  | e :: rest => ((if p e then 1 else 0) + count p rest)%nat
  end.

(** The events a run added to the trace it started from. *)
Definition events_since {P} (w w' : World P) : list event :=
  drop (length (trace w)) (trace w').

Definition dict_lookup (k : string) (v : value) : option value :=
  match v with
  | VDict items => dict_get k items
  | _ => None
  end.

(** A dict without its items under key [k]. *)
Definition dict_remove (k : string) (v : value) : value :=
  match v with
  | VDict items => VDict (List.filter (fun kv => negb (String.eqb k (fst kv))) items)
  | _ => v
  end.

(** The exchanges of a session that are awaiting their response after
    [evs]: requests received and not yet answered. *)
Definition in_flight (evs : list event) : Z :=
  Z.of_nat (count is_receive evs) - Z.of_nat (count is_send evs).

(** An event that neither receives a request nor sends a response. *)
Definition silent (e : event) : Prop := is_receive e = false /\ is_send e = false.

(** Strict pairing of a session's trace: at every point at most one
    exchange is in flight, and a message is received only when none is. *)
Definition strictly_paired (evs : list event) : Prop :=
  forall n : nat,
    0 <= in_flight (take n evs) <= 1 /\
    forall f, evs !! n = Some (EReceive f) -> in_flight (take n evs) = 0.

(** The shape of what the loop of a session leaves in the trace: turns
    that were answered, then one turn that was not. *)
Inductive session_body : list event -> Prop :=
| body_failed f q :
    Forall silent q ->
    session_body (EReceive f :: q)
| body_answered f msg rest :
    session_body rest ->
    session_body (EReceive f :: ECall OpPredictCategory :: ECall OpAnalyzeExpense
                    :: ESend msg :: rest).

(** ** The properties as the specification words them *)

Section Properties.
Context {models : Models} {P : Type} {svc : Services P}.

(** Every batch of N expenses yields N entries, failing items included. *)
Definition batch_per_item_results : Prop :=
  forall (expenses : list ExpenseData) (w : World P),
    exists results,
      fst (batch_categorize_expenses expenses w) = Ok results /\
      length results = length expenses.

(** Two tasks are never inside the retraining of one capability at once. *)
Definition retraining_serialized (w0 : World P) : Prop :=
  forall w, reachable w0 w -> forall c i j, ~ both_running c i j w.

(** Every capability a submission targets is retrained, whatever happens
    to the other capabilities of the submission. *)
Definition siblings_unaffected : Prop :=
  forall (td : gmap string (list value)) (w : World P) (c : capability),
    is_Some (td !! capability_key c) ->
    ECall (OpRetrain c) ∈ events_since w (snd (retrain_models_background td w)).

(** Two uploads never share a storage path, not even under one name. *)
Definition storage_paths_unique : Prop :=
  forall f1 f2 : UploadFile,
    filename f1 = filename f2 -> file_path f1 <> file_path f2.

(** A message that does not validate is answered, and the session goes on
    to receive what follows. *)
Definition malformed_keeps_session_open : Prop :=
  forall (data : value) (rest : list frame) (w : World P),
    is_Ok (ExpenseData_init data) = false ->
    let evs := events_since w
                 (snd (websocket_real_time_analysis (TextJson data :: rest) w)) in
    (exists msg, ESend msg ∈ evs) /\ (forall f, f ∈ rest -> EReceive f ∈ evs).

(** A submission that names no known capability is refused. *)
Definition submission_validated : Prop :=
  forall (td : gmap string (list value)) (w : World P),
    (forall c, td !! capability_key c = None) ->
    is_Ok (fst (retrain_models td w)) = false.

End Properties.

(** ** A concrete deployment

    Small models and providers on which the handlers can be run: an expense
    is its description, a prediction a label; the providers fail on inputs
    they cannot use and count their retrainings. *)

Module Demo.

Definition expense_of (data : value) : result string :=
  match data with
  | VDict items =>
      match dict_get "description" items with
      | Some (VStr s) => Ok s
      | _ => Raise (Error "ValidationError" "description: field required")
      end
  | _ => Raise (Error "TypeError" "argument after ** must be a mapping")
  end.

#[export] Instance models : Models := {|
  ExpenseData := string;
  CategoryPrediction := string;
  FraudAlert := Z;
  PredictionResult := Z;
  ValidationResult := bool;
  OCRResult := nat;
  ExpenseData_init := expense_of;
  CategoryPrediction_dict := fun c => VDict [("predicted_category", VStr c)];
  FraudAlert_dict := fun s => VDict [("score", VInt s)]
|}.

Definition label (description : string) : result string :=
  if String.eqb description "" then Raise (Error "TimeoutError" "provider timed out")
  else Ok ("travel").

(** The batch operation labels every item and fails when one item does. *)
Fixpoint label_all (es : list string) : result (list string) :=
  match es with
  | [] => Ok []
  | e :: rest =>
      match label e, label_all rest with
      | Ok l, Ok ls => Ok (l :: ls)
      | Raise x, _ => Raise x
      | _, Raise x => Raise x
      end
  end.

(** A receipt is readable when its file is there and starts like a PNG. *)
Definition readable (path : string) (fs : gmap string bytes) : result nat :=
  match fs !! path with
  | Some (Byte.x89 :: content) => Ok (S (length content))
  | Some _ => Raise (Error "ValueError" "cannot identify image file")
  | None => Raise (Error "FileNotFoundError" path)
  end.

#[export] Instance svc : Services nat := {|
  predict_category := fun e p => (label e, p);
  batch_predict := fun es p => (label_all es, p);
  analyze_expense := fun e _ p => (Ok 0, p);
  svc_predict_budget := fun _ months p => (Ok (100 * months), p);
  svc_validate_receipt := fun path fs p =>
    (match readable path fs with Ok _ => Ok true | Raise x => Raise x end, p);
  process_receipt := fun path _ fs p => (readable path fs, p);
  retrain := fun c examples p =>
    match examples with
    | [] => (Raise (Error "ValueError" "no training examples"), p)
    | _ => (Ok tt, S p)
    end
|}.

Definition w0 : World nat := mkWorld O ∅ [] 0 [] [].

Definition example : value :=
  VDict [("description", VStr "taxi"); ("category", VStr "travel")].

Definition taxi : value := VDict [("description", VStr "taxi")].
Definition no_description : value := VDict [("amount", VInt 12)].

(** The response to [taxi] at time 0. *)
Definition taxi_response : value :=
  VDict [("category", VDict [("predicted_category", VStr "travel")]);
         ("fraud_alert", VDict [("score", VInt 0)]);
         ("timestamp", VIso 0)].

Definition receipt : UploadFile :=
  {| filename := "receipt.png"; file_content := [Byte.x89; Byte.x50] |}.
Definition other_receipt : UploadFile :=
  {| filename := "receipt.png"; file_content := [Byte.x89; Byte.x4e] |}.
Definition notes : UploadFile :=
  {| filename := "notes.txt"; file_content := [Byte.x68; Byte.x69] |}.

(** Retraining payloads. *)
Definition td_categorization : gmap string (list value) :=
  {[ "categorization" := [example] ]}.

(** The world after one submission for categorization whose task has
    been started and waits for the provider. *)
Definition w_retraining : World nat :=
  mkWorld O ∅ [(INFO, "Starting model retraining process...")] 0
    [Task td_categorization (Awaiting Categorization)]
    [ECreateTask; ECall (OpRetrain Categorization)].
Definition td_with_unknown : gmap string (list value) :=
  <[ "unknown_capability" := [example] ]> td_categorization.
Definition td_unknown_only : gmap string (list value) :=
  {[ "unknown_capability" := [example] ]}.
Definition td_failing_categorization : gmap string (list value) :=
  <[ "categorization" := [] ]> {[ "fraud_detection" := [example] ]}.

End Demo.

(** ** The other handlers of [main.py]

    The endpoints for single expenses, risk, trends, approval time, tags and
    model metrics.  Their providers' operations and the types these return
    extend the interface above. *)

(** A decimal literal of the source, [digits / 10 ^ places]: [0.85] is
    [Decimal 85 2]. *)
Record decimal : Type := Decimal {
  digits : Z;
  places : nat
}.

Class AnalysisModels `{Models} : Type := {
  RiskScore : Type;
  Trends : Type;
  Hours : Type;
  Tags : Type;
  Metadata : Type;
  Metric : Type;
  description : ExpenseData -> string
}.

(** The operations of the fraud, analytics, tagging and OCR services that
    the handlers below call; the four [get_] operations take no argument. *)
Class AnalysisServices `{AnalysisModels} (P : Type) : Type := {
  calculate_risk_score : ExpenseData -> gmap string value -> P -> result RiskScore * P;
  analyze_trends : list ExpenseData -> string -> P -> result Trends * P;
  svc_predict_approval_time : ExpenseData -> list value -> P -> result Hours * P;
  generate_tags : ExpenseData -> P -> result Tags * P;
  extract_metadata : ExpenseData -> P -> result Metadata * P;
  categorization_get_accuracy : P -> result Metric * P;
  fraud_get_precision : P -> result Metric * P;
  predictive_get_mae : P -> result Metric * P;
  ocr_get_accuracy : P -> result Metric * P
}.

(** The dicts these handlers return, one field for each key. *)
Record RiskAssessment `{AnalysisModels} : Type := {
  risk_score : RiskScore;
  risk_timestamp : Z
}.

Record TrendAnalysis `{AnalysisModels} : Type := {
  trends : Trends;
  analysis_type : string
}.

Record ApprovalEstimate `{AnalysisModels} : Type := {
  estimated_hours : Hours;
  approval_confidence : decimal;
  approval_timestamp : Z
}.

Record TagResult `{AnalysisModels} : Type := {
  tags : Tags;
  metadata : Metadata;
  tag_confidence : decimal;
  tag_timestamp : Z
}.

Record ModelPerformance `{AnalysisModels} : Type := {
  categorization_accuracy : Metric;
  fraud_detection_precision : Metric;
  prediction_mae : Metric;
  ocr_accuracy : Metric;
  last_updated : Z
}.

(** The alternatives of the pattern [^(weekly|monthly|quarterly)$]. *)
Definition analysis_type_alternatives : list string :=
  ["weekly"; "monthly"; "quarterly"].

(** The line feed, character 10. *)
Definition newline : string :=
  String (Ascii.Ascii false true false true false false false false) EmptyString.

(** [re.match] of that pattern on [s]: the whole of [s] is one of the
    alternatives, where [$] also matches just before a newline that ends
    the string. *)
Definition analysis_type_matches (s : string) : bool :=
  existsb (fun a => String.eqb s a || String.eqb s (a ++ newline))
    analysis_type_alternatives.

Section OtherHandlers.
Context {models : Models} {amodels : AnalysisModels} {P : Type}.
Context {svc : Services P} {asvc : AnalysisServices P}.

Local Abbreviation M := (@M P).

(** [await service.op(...)] for the operations of [AnalysisServices]: the
    provider's state moves and the outcome is the provider's. *)
Definition invoke {A} (f : P -> result A * P) : M A :=
  fun w =>
    let '(r, p') := f (prov w) in
    (r, set_prov p' w).

(** *** [POST /api/v1/categorize-expense] *)

Definition categorize_expense (expense_data : ExpenseData) : M CategoryPrediction :=
  try_except
    (result <- call OpPredictCategory (predict_category expense_data) ;;
     logger_info ("Category prediction completed for expense: "
                  ++ description expense_data) ;;;
     ret result)
    (fun e =>
     logger_error ("Categorization error: " ++ str e) ;;;
     raise (HTTPException 500 "Failed to categorize expense")).

(** *** [POST /api/v1/detect-fraud] *)

Definition detect_fraud (expense_data : ExpenseData)
    (user_history : option (list ExpenseData)) : M FraudAlert :=
  try_except
    (result <- call OpAnalyzeExpense (analyze_expense expense_data user_history) ;;
     logger_info ("Fraud analysis completed for expense: "
                  ++ description expense_data) ;;;
     ret result)
    (fun e =>
     logger_error ("Fraud detection error: " ++ str e) ;;;
     raise (HTTPException 500 "Failed to analyze expense for fraud")).

(** *** [POST /api/v1/risk-assessment] *)

Definition assess_risk_score (expense_data : ExpenseData)
    (company_policies : gmap string value) : M RiskAssessment :=
  try_except
    (score <- invoke (calculate_risk_score expense_data company_policies) ;;
     now <- utcnow ;;
     ret {| risk_score := score; risk_timestamp := now |})
    (fun e =>
     logger_error ("Risk assessment error: " ++ str e) ;;;
     raise (HTTPException 500 "Failed to assess risk score")).

(** *** [POST /api/v1/analyze-trends] *)

(** The handler's body. *)
Definition analyze_spending_trends (expenses : list ExpenseData)
    (type : string) : M TrendAnalysis :=
  try_except
    (found <- invoke (analyze_trends expenses type) ;;
     ret {| trends := found; analysis_type := type |})
    (fun e =>
     logger_error ("Trend analysis error: " ++ str e) ;;;
     raise (HTTPException 500 "Failed to analyze spending trends")).

(** The request as the framework serves it: [analysis_type] is
    [Field(default="monthly", regex=...)]. *)
Definition analyze_spending_trends_request (expenses : list ExpenseData)
    (type : option string) : M TrendAnalysis :=
  let type := default "monthly" type in
  if analysis_type_matches type
  then analyze_spending_trends expenses type
  else raise (RequestValidationError "analysis_type").

(** *** [POST /api/v1/predict-approval-time] *)

Definition predict_approval_time (expense_data : ExpenseData)
    (approval_history : list value) : M ApprovalEstimate :=
  try_except
    (prediction <- invoke (svc_predict_approval_time expense_data approval_history) ;;
     now <- utcnow ;;
     ret {| estimated_hours := prediction;
            approval_confidence := Decimal 85 2;
            approval_timestamp := now |})
    (fun e =>
     logger_error ("Approval time prediction error: " ++ str e) ;;;
     raise (HTTPException 500 "Failed to predict approval time")).

(** *** [POST /api/v1/auto-tag] *)

Definition auto_tag_expense (expense_data : ExpenseData) : M TagResult :=
  try_except
    (found <- invoke (generate_tags expense_data) ;;
     extracted <- invoke (extract_metadata expense_data) ;;
     now <- utcnow ;;
     ret {| tags := found;
            metadata := extracted;
            tag_confidence := Decimal 9 1;
            tag_timestamp := now |})
    (fun e =>
     logger_error ("Auto-tagging error: " ++ str e) ;;;
     raise (HTTPException 500 "Failed to generate tags")).

(** *** [GET /api/v1/model-performance] *)

Definition get_model_performance : M ModelPerformance :=
  try_except
    (accuracy <- invoke categorization_get_accuracy ;;
     precision <- invoke fraud_get_precision ;;
     mae <- invoke predictive_get_mae ;;
     ocr <- invoke ocr_get_accuracy ;;
     now <- utcnow ;;
     ret {| categorization_accuracy := accuracy;
            fraud_detection_precision := precision;
            prediction_mae := mae;
            ocr_accuracy := ocr;
            last_updated := now |})
    (fun e =>
     logger_error ("Performance metrics error: " ++ str e) ;;;
     raise (HTTPException 500 "Failed to retrieve model performance")).

End OtherHandlers.

(** ** More on tasks and traces *)

(** How far the coroutine of a task has come. *)
Definition stage_rank (s : stage) : nat :=
  match s with
  | Created => 0
  | Awaiting Categorization => 1
  | Awaiting FraudDetection => 2
  | Awaiting Predictions => 3
  | Finished => 4
  end.

(** A task that awaits a provider awaits one its payload names. *)
Definition awaits_named (t : task) : Prop :=
  forall c, at_stage t = Awaiting c -> is_Some (training_data t !! capability_key c).

(** The capabilities a payload targets, in the order the coroutine looks at
    them. *)
Definition targets (td : gmap string (list value)) : list capability :=
  List.filter
    (fun c => match td !! capability_key c with Some _ => true | None => false end)
    retrain_order.

(** The frames that a trace shows as received, in order. *)
Definition received (evs : list event) : list frame :=
  omap (fun ev => match ev with EReceive f => Some f | _ => None end) evs.

Section SessionProperties.
Context {models : Models} {P : Type} {svc : Services P}.

(** What a session leaves in the trace between accepting and closing, at
    clock [t]: receipts, the two provider calls, and responses made of a
    category, a fraud alert and the time. *)
Definition session_event (t : Z) (ev : event) : Prop :=
  match ev with
  | EReceive _ => True
  | ECall op => op = OpPredictCategory \/ op = OpAnalyzeExpense
  | ESend msg =>
      exists c a, msg = VDict [("category", CategoryPrediction_dict c);
                               ("fraud_alert", FraudAlert_dict a);
                               ("timestamp", VIso t)]
  | _ => False
  end.

(** A message that validates and whose analysis succeeds whatever state
    the providers are in. *)
Definition answerable (f : frame) : Prop :=
  exists data x,
    f = TextJson data /\ ExpenseData_init data = Ok x /\
    (forall p, is_Ok (fst (predict_category x p)) = true) /\
    (forall p, is_Ok (fst (analyze_expense x None p)) = true).

(** A frame on which the turn of the loop raises whatever state the
    providers are in: no JSON, the disconnect, or a message that does not
    validate or that one of the two providers cannot analyse. *)
Definition unanswerable (f : frame) : Prop :=
  (exists raw, f = TextInvalid raw) \/
  f = Disconnect \/
  (exists data, f = TextJson data /\ is_Ok (ExpenseData_init data) = false) \/
  (exists data x,
     f = TextJson data /\ ExpenseData_init data = Ok x /\
     ((forall p, is_Ok (fst (predict_category x p)) = false) \/
      (forall p, is_Ok (fst (analyze_expense x None p)) = false))).

End SessionProperties.

(** A deployment of the other providers, on the models of [Demo]. *)
Module DemoAnalysis.

Definition describe (e : @ExpenseData Demo.models) : string := e.

#[export] Instance amodels : AnalysisModels (H := Demo.models) := {|
  RiskScore := Z;
  Trends := nat;
  Hours := Z;
  Tags := list string;
  Metadata := string;
  Metric := decimal;
  description := describe
|}.

(** Tagging fails on an expense without description, metadata on one
    described as "?"; the OCR metric is not available. *)
Definition risk (e : string) (policies : gmap string value) (p : nat)
    : result Z * nat :=
  (Ok (Z.of_nat (size policies)), p).

Definition trend_count (es : list string) (type : string) (p : nat)
    : result nat * nat :=
  (Ok (length es), S p).

Definition approval_hours (e : string) (history : list value) (p : nat)
    : result Z * nat :=
  (Ok (Z.of_nat (length history)), p).

Definition tag (e : string) (p : nat) : result (list string) * nat :=
  (if String.eqb e "" then Raise (Error "ValueError" "nothing to tag") else Ok [e],
   S p).

Definition vendor_of (e : string) (p : nat) : result string * nat :=
  (if String.eqb e "?" then Raise (Error "KeyError" "vendor") else Ok e, S p).

Definition metric (m : result decimal) (p : nat) : result decimal * nat := (m, p).

#[export] Instance asvc : @AnalysisServices Demo.models amodels nat :=
  @Build_AnalysisServices Demo.models amodels nat
    risk trend_count approval_hours tag vendor_of
    (metric (Ok (Decimal 93 2)))
    (metric (Ok (Decimal 88 2)))
    (metric (Ok (Decimal 125 1)))
    (metric (Raise (Error "RuntimeError" "model not loaded"))).

(** The world of [Demo.w_retraining] once the provider has completed and
    the task has run to its end. *)
Definition w_retrained : World nat :=
  mkWorld 1%nat ∅
    [(INFO, "Starting model retraining process...");
     (INFO, "Model retraining completed successfully")] 0
    [Task Demo.td_categorization Finished]
    [ECreateTask; ECall (OpRetrain Categorization)].

(** A world in which another file is stored already. *)
Definition w_with_other_file : World nat :=
  mkWorld O {[ "/tmp/other.png" := [Byte.x89] ]} [] 0 [] [].

(** A message that validates and that the categorization provider times
    out on. *)
Definition blank : value := VDict [("description", VStr "")].

End DemoAnalysis.

(** * Theorems *)

(** ** The monad and the trace *)

Section MonadFacts.
Context {P : Type}.
Implicit Types w : World P.

Lemma events_since_app w w' evs :
  trace w' = (trace w ++ evs)%list -> events_since w w' = evs.
Proof.
  intros E. unfold events_since. rewrite E. apply drop_app_length.
Qed.

Lemma events_since_refl w : events_since w w = [].
Proof. apply events_since_app. by rewrite app_nil_r. Qed.

Lemma count_app p (l1 l2 : list event) :
  count p (l1 ++ l2) = (count p l1 + count p l2)%nat.
Proof. induction l1 as [|e l1 IH]; simpl; [done | rewrite IH; lia]. Qed.

Lemma count_zero_not_elem p (l : list event) e :
  count p l = O -> p e = true -> e ∉ l.
Proof.
  induction l as [|x l IH]; simpl; intros Hc Hp Hin.
  - by apply elem_of_nil in Hin.
  - apply elem_of_cons in Hin as [->|Hin].
    + rewrite Hp in Hc. lia.
    + apply IH; [lia | done | done].
Qed.

End MonadFacts.

(** ** Health check *)

(** C10: the health check answers "healthy" with the six capabilities
    "active" whatever the world is: it changes nothing, calls no provider,
    and two answers differ in the timestamp only, also between deployments
    with different providers. *)
Theorem health_check_unconditional :
  forall (P P' : Type) (w : World P) (w' : World P'),
  exists resp resp',
    health_check w = (Ok resp, w) /\
    health_check w' = (Ok resp', w') /\
    dict_lookup "status" resp = Some (VStr "healthy") /\
    dict_lookup "services" resp =
      Some (VDict [("categorization", VStr "active");
                   ("fraud_detection", VStr "active");
                   ("predictive_analytics", VStr "active");
                   ("receipt_validation", VStr "active");
                   ("auto_tagging", VStr "active");
                   ("ocr", VStr "active")]) /\
    dict_lookup "timestamp" resp = Some (VIso (clock w)) /\
    dict_remove "timestamp" resp = dict_remove "timestamp" resp'.
Proof.
  intros P P' w w'. unfold health_check, bind, utcnow, ret.
  eexists _, _. repeat split; reflexivity.
Qed.

(** ** Budget forecast *)

Section Forecast.
Context {models : Models} {P : Type} {svc : Services P}.

Lemma field_admits_months m :
  field_admits prediction_months_field m = true <-> 1 <= m <= 12.
Proof.
  unfold field_admits, prediction_months_field; simpl.
  rewrite andb_true_iff, !Z.leb_le. done.
Qed.

Lemma predict_budget_calls_provider (hist : list ExpenseData) m (w : World P) :
  events_since w (snd (predict_budget hist m w)) = [ECall OpPredictBudget].
Proof.
  apply events_since_app.
  unfold predict_budget, try_except, bind, call, logger_info, logger_error, ret, raise.
  destruct (svc_predict_budget hist m (prov w)) as [[r|e] p']; reflexivity.
Qed.


End Forecast.


(** ** Batch categorization *)

Section Batch.
Context {models : Models} {P : Type} {svc : Services P}.

(** C1, as the code has it: the batch goes to the provider in one call.
    What the provider returns is handed back as it is, so the entries and
    their order are the provider's; when the call raises, for whatever
    item, the request fails as a whole with status 500 and no entry is
    returned. *)
Theorem batch_outcome_is_the_providers (expenses : list ExpenseData) (w : World P) :
  fst (batch_categorize_expenses expenses w) =
    match fst (batch_predict expenses (prov w)) with
    | Ok results => Ok results
    | Raise _ => Raise (HTTPException 500 "Failed to process batch categorization")
    end /\
  events_since w (snd (batch_categorize_expenses expenses w)) = [ECall OpBatchPredict].
Proof.
  unfold batch_categorize_expenses, try_except, bind, call, logger_info,
    logger_error, ret, raise.
  destruct (batch_predict expenses (prov w)) as [[results|e] p']; simpl;
    (split; [reflexivity | by apply events_since_app]).
Qed.

End Batch.

(** C1 fails as stated: with three expenses of which the second times out in
    the provider, the handler yields no three entries but one failure. *)
Lemma batch_item_failure_fails_batch : ~ batch_per_item_results (svc := Demo.svc).
Proof.
  intros H. destruct (H ["taxi"; ""; "hotel"] Demo.w0) as [results [E _]].
  vm_compute in E. discriminate E.
Qed.

(** ** Uploaded artifacts *)

(** C5, as the code has it: the storage path is [/tmp/] followed by the
    file name the client gave, so two uploads share a path exactly when they
    share the name. *)
Theorem file_path_is_the_filename (f1 f2 : UploadFile) :
  file_path f1 = file_path f2 <-> filename f1 = filename f2.
Proof.
  unfold file_path. split; intros E.
  - simpl in E. by simplify_eq.
  - by rewrite E.
Qed.

(** C5 fails as stated: two different uploads under one name get one path. *)
Lemma same_name_same_path : ~ storage_paths_unique.
Proof.
  intros H. by apply (H Demo.receipt Demo.other_receipt).
Qed.

Section Artifacts.
Context {models : Models} {P : Type} {svc : Services P}.

Lemma stored_once (fs : gmap string bytes) path content :
  <[path := (default [] (<[path := []]> fs !! path) ++ content)%list]> (<[path := []]> fs)
    = <[path := content]> fs.
Proof. by rewrite lookup_insert_eq, insert_insert_eq. Qed.


(** When the provider raises, the file stays where it was written and
    nothing removes it. *)
Lemma validate_receipt_failure_leaks (file : UploadFile) (w : World P) e p' :
  svc_validate_receipt (file_path file)
    (<[file_path file := file_content file]> (files w)) (prov w) = (Raise e, p') ->
  fst (validate_receipt file w) = Raise (HTTPException 500 "Failed to validate receipt") /\
  files (snd (validate_receipt file w)) !! file_path file = Some (file_content file) /\
  count is_remove (events_since w (snd (validate_receipt file w))) = 0%nat.
Proof.
  intros E.
  unfold validate_receipt, try_except, bind, open_wb, buffer_write, call_fs, call,
    os_remove, logger_error, raise, ret; simpl.
  rewrite stored_once, E; simpl. rewrite lookup_insert_eq.
  split; [done | split; [done|]].
  unfold events_since; simpl. rewrite <- !app_assoc, drop_app_length. done.
Qed.

Lemma enhanced_ocr_failure_leaks (file : UploadFile) enhance (w : World P) e p' :
  process_receipt (file_path file) enhance
    (<[file_path file := file_content file]> (files w)) (prov w) = (Raise e, p') ->
  fst (enhanced_ocr_processing file enhance w)
    = Raise (HTTPException 500 "Failed to process OCR") /\
  files (snd (enhanced_ocr_processing file enhance w)) !! file_path file
    = Some (file_content file) /\
  count is_remove (events_since w (snd (enhanced_ocr_processing file enhance w))) = 0%nat.
Proof.
  intros E.
  unfold enhanced_ocr_processing, try_except, bind, open_wb, buffer_write, call_fs,
    call, os_remove, logger_error, raise, ret; simpl.
  rewrite stored_once, E; simpl. rewrite lookup_insert_eq.
  split; [done | split; [done|]].
  unfold events_since; simpl. rewrite <- !app_assoc, drop_app_length. done.
Qed.

End Artifacts.


(** C4 at a failing input: a text file uploaded as a receipt makes the
    provider raise; both endpoints answer 500 and leave [/tmp/notes.txt]
    behind, with no removal at all. *)
Theorem artifact_not_released_on_failure :
  let v := validate_receipt (svc := Demo.svc) Demo.notes Demo.w0 in
  let o := enhanced_ocr_processing (svc := Demo.svc) Demo.notes true Demo.w0 in
  fst v = Raise (HTTPException 500 "Failed to validate receipt") /\
  files (snd v) !! "/tmp/notes.txt" = Some [Byte.x68; Byte.x69] /\
  count is_remove (trace (snd v)) = 0%nat /\
  fst o = Raise (HTTPException 500 "Failed to process OCR") /\
  files (snd o) !! "/tmp/notes.txt" = Some [Byte.x68; Byte.x69] /\
  count is_remove (trace (snd o)) = 0%nat.
Proof. vm_compute. repeat split; reflexivity. Qed.

(** ** Retraining: the submission and the background coroutine *)

Ltac run_handler :=
  unfold retrain_models_background, retrain_models, retrain_if_present,
    try_except, bind, call, create_task, utcnow, logger_info, logger_error,
    ret, raise; simpl.

Ltac since_trace :=
  unfold events_since; simpl; rewrite <- ?app_assoc, ?app_nil_r;
  rewrite ?drop_app_length, ?drop_all; simpl.

Section Retraining.
Context {models : Models} {P : Type} {svc : Services P}.
Implicit Types (td : gmap string (list value)) (w : World P).

Lemma retrain_models_accepts td w :
  retrain_models td w =
    (Ok (VDict [
       ("status", VStr "retraining_started");
       ("estimated_completion", VTime (clock w + 2 * 3600));
       ("message", VStr "Model retraining initiated successfully")]),
     set_tasks (tasks w ++ [Task td Created]) (add_event ECreateTask w)).
Proof. reflexivity. Qed.

(** The coroutine reads its payload under the three known keys only. *)
Lemma background_reads_known_keys td td' w :
  (forall c, td' !! capability_key c = td !! capability_key c) ->
  retrain_models_background td' w = retrain_models_background td w.
Proof.
  intros H.
  pose proof (H Categorization) as Hc.
  pose proof (H FraudDetection) as Hf.
  pose proof (H Predictions) as Hp.
  unfold retrain_models_background, retrain_if_present, try_except, bind.
  simpl in *. by rewrite Hc, Hf, Hp.
Qed.

Lemma background_without_known_keys td w :
  (forall c, td !! capability_key c = None) ->
  retrain_models_background td w =
    (Ok tt,
     add_log INFO "Model retraining completed successfully"
       (add_log INFO "Starting model retraining process..." w)).
Proof.
  intros H.
  pose proof (H Categorization) as Hc.
  pose proof (H FraudDetection) as Hf.
  pose proof (H Predictions) as Hp.
  run_handler. simpl in *. by rewrite Hc, Hf, Hp.
Qed.

(** C8, as the code has it: every submission is accepted without a look at
    its keys; the answer, given at once, is the status
    "retraining_started" with an estimated completion two hours ahead and
    a message, and carries no job identifier; the handler only creates
    the background task and calls no provider.  The task reads the keys
    categorization, fraud_detection and predictions and ignores every
    other key; a payload with none of the three trains nothing and raises
    nothing. *)
Theorem retrain_submission_unchecked td w :
  retrain_models td w =
    (Ok (VDict [
       ("status", VStr "retraining_started");
       ("estimated_completion", VTime (clock w + 2 * 3600));
       ("message", VStr "Model retraining initiated successfully")]),
     set_tasks (tasks w ++ [Task td Created]) (add_event ECreateTask w)) /\
  events_since w (snd (retrain_models td w)) = [ECreateTask] /\
  prov (snd (retrain_models td w)) = prov w /\
  (forall td', (forall c, td' !! capability_key c = td !! capability_key c) ->
     retrain_models_background td' w = retrain_models_background td w) /\
  ((forall c, td !! capability_key c = None) ->
     fst (retrain_models_background td w) = Ok tt /\
     events_since w (snd (retrain_models_background td w)) = [] /\
     prov (snd (retrain_models_background td w)) = prov w).
Proof.
  split; [apply retrain_models_accepts|].
  split; [by apply events_since_app|].
  split; [reflexivity|].
  split; [intros td'; apply background_reads_known_keys|].
  intros H. rewrite (background_without_known_keys _ _ H); simpl.
  split; [done | split; [|done]].
  apply events_since_app; simpl. by rewrite app_nil_r.
Qed.

(** The calls of the coroutine come in the order of the source: a later
    capability is only retrained after every earlier one the payload
    names. *)
Lemma background_calls_in_order td w b c :
  c ∈ after b ->
  is_Some (td !! capability_key b) ->
  ECall (OpRetrain c) ∈ events_since w (snd (retrain_models_background td w)) ->
  ECall (OpRetrain b) ∈ events_since w (snd (retrain_models_background td w)).
Proof.
  intros Hcb [exb Hb]. run_handler.
  destruct b, c; simpl in *; try (exfalso; set_solver);
    rewrite ?Hb; simpl;
    repeat match goal with
           | |- context [match ?t !! ?k with _ => _ end] =>
               destruct (t !! k) eqn:?; simpl
           | |- context [retrain ?x ?l ?p] =>
               destruct (retrain x l p) as [[[]|?] ?]; simpl
           end;
    since_trace; simplify_eq; set_solver.
Qed.


End Retraining.

Lemma retrain_submission_unchecked_witness :
  retrain_models_background (svc := Demo.svc) Demo.td_categorization Demo.w0
    = retrain_models_background (svc := Demo.svc) Demo.td_with_unknown Demo.w0 /\
  events_since Demo.w0
    (snd (retrain_models_background (svc := Demo.svc) Demo.td_unknown_only Demo.w0)) = [].
Proof.
  split.
  - apply (retrain_submission_unchecked (svc := Demo.svc) Demo.td_with_unknown Demo.w0).
    intros []; reflexivity.
  - apply (retrain_submission_unchecked (svc := Demo.svc) Demo.td_unknown_only Demo.w0).
    intros []; reflexivity.
Defined.

(** C8 fails as stated: a payload that names no known capability is
    accepted like any other. *)
Lemma unknown_only_payload_accepted : ~ submission_validated (P := nat).
Proof.
  intros H.
  assert (E : is_Ok (fst (retrain_models Demo.td_unknown_only Demo.w0)) = false).
  { apply H. intros []; reflexivity. }
  vm_compute in E. discriminate E.
Qed.



(** ** Retraining: the tasks on the event loop *)

Section Loop.
Context {models : Models} {P : Type} {svc : Services P}.
Implicit Types (td : gmap string (list value)) (w : World P) (t : task).

Lemma run_to_await_next td todo w c :
  next_target td todo = Some c ->
  run_to_await td todo w = (Awaiting c, add_event (ECall (OpRetrain c)) w).
Proof.
  induction todo as [|c' rest IH]; simpl; [done|].
  destruct (td !! capability_key c'); [by intros [= ->] | exact IH].
Qed.

Lemma run_to_await_tasks td todo w :
  tasks (run_to_await td todo w).2 = tasks w /\
  (run_to_await td todo w).1 <> Created.
Proof.
  revert w. induction todo as [|c rest IH]; intros w; simpl; [done|].
  destruct (td !! capability_key c); [done | apply IH].
Qed.

(** A resumed task is left started, and no other task is touched. *)
Lemma step_task_tasks i w w' :
  step_task i w = Some w' ->
  exists t st, tasks w !! i = Some t /\ st <> Created /\
               tasks w' = <[i := Task (training_data t) st]> (tasks w).
Proof.
  unfold step_task, resume. intros H.
  destruct (tasks w !! i) as [t|] eqn:Ht; [|done].
  exists t. destruct (at_stage t) as [|c|] eqn:Hs; [| |done].
  - destruct (run_to_await_tasks (training_data t) retrain_order
                (add_log INFO "Starting model retraining process..." w)) as [Hts Hst].
    destruct (run_to_await _ _ _) as [st w1]; simpl in *.
    injection H as <-. exists st. by rewrite <- Hts.
  - destruct (retrain c _ (prov w)) as [[u|e] p'].
    + destruct (run_to_await_tasks (training_data t) (after c) (set_prov p' w))
        as [Hts Hst].
      destruct (run_to_await _ _ _) as [st w1]; simpl in *.
      injection H as <-. exists st. by rewrite <- Hts.
    + injection H as <-. by exists Finished.
Qed.

Lemma started_prefix_submit (ts : list task) td :
  started_prefix ts -> started_prefix (ts ++ [Task td Created]).
Proof.
  intros Hpre i j ti tj Hij Hi Hj Hstarted.
  destruct (decide (j < length ts)%nat) as [Hlt|Hge].
  - rewrite lookup_app_l in Hi, Hj by lia.
    exact (Hpre i j ti tj Hij Hi Hj Hstarted).
  - rewrite lookup_app_r in Hj by lia.
    destruct (j - length ts)%nat; simpl in Hj; [|done].
    by injection Hj as <-.
Qed.

Lemma started_prefix_resume (ts : list task) i t st :
  ts !! i = Some t -> st <> Created ->
  (forall j t', (j < i)%nat -> ts !! j = Some t' -> at_stage t' <> Created) ->
  started_prefix ts ->
  started_prefix (<[i := Task (training_data t) st]> ts).
Proof.
  intros Hi Hst Hfifo Hpre a b ta tb Hab Ha Hb Hstarted.
  destruct (decide (a = i)) as [->|Hai].
  { rewrite list_lookup_insert_eq in Ha by (by eapply lookup_lt_Some).
    injection Ha as <-. unfold started; simpl. by rewrite bool_decide_eq_true. }
  rewrite list_lookup_insert_ne in Ha by done.
  destruct (decide (b = i)) as [->|Hbi].
  { unfold started. rewrite bool_decide_eq_true. by eapply Hfifo. }
  rewrite list_lookup_insert_ne in Hb by done.
  exact (Hpre a b ta tb Hab Ha Hb Hstarted).
Qed.

Lemma loop_step_started_prefix w w' :
  loop_step w w' -> started_prefix (tasks w) -> started_prefix (tasks w').
Proof.
  intros Hstep Hpre. destruct Hstep as [td w | i t w w' Hi Hs Hfifo Hst | i t c w w' Hi Hs Hst].
  - simpl. by apply started_prefix_submit.
  - apply step_task_tasks in Hst as (t0 & st & Ht0 & Hne & ->).
    assert (t0 = t) as -> by congruence.
    by apply started_prefix_resume.
  - apply step_task_tasks in Hst as (t0 & st & Ht0 & Hne & ->).
    assert (t0 = t) as -> by congruence.
    apply started_prefix_resume; [done | done | | done].
    intros j t' Hj Ht'.
    assert (Hrun : started t = true).
    { unfold started. rewrite bool_decide_eq_true, Hs. done. }
    specialize (Hpre j i t' t Hj Ht' Hi Hrun).
    unfold started in Hpre. by rewrite bool_decide_eq_true in Hpre.
Qed.

Lemma reachable_started_prefix w0 w :
  reachable w0 w -> started_prefix (tasks w0) -> started_prefix (tasks w).
Proof.
  induction 1 as [|w1 w2 w3 Hstep _ IH]; [done|].
  intros Hpre. apply IH. by eapply loop_step_started_prefix.
Qed.

(** While a task is inside the retraining of [c], a new submission whose
    first capability is [c] is taken, its task is started and enters the
    retraining of [c] as well. *)
Lemma second_submission_overlaps td w i t c :
  tasks w !! i = Some t ->
  running c t = true ->
  (forall t', t' ∈ tasks w -> started t' = true) ->
  next_target td retrain_order = Some c ->
  exists w', reachable w w' /\ both_running c i (length (tasks w)) w'.
Proof.
  intros Hi Hrun Hall Hnext.
  pose proof (lookup_lt_Some _ _ _ Hi) as Hlt.
  set (n := length (tasks w)).
  set (ws := snd (retrain_models td w)).
  assert (Hts : tasks ws = (tasks w ++ [Task td Created])%list) by reflexivity.
  assert (Hn : tasks ws !! n = Some (Task td Created)).
  { rewrite Hts. by apply list_lookup_middle. }
  set (w1 := add_event (ECall (OpRetrain c))
               (add_log INFO "Starting model retraining process..." ws)).
  set (w' := set_tasks (<[n := Task td (Awaiting c)]> (tasks w1)) w1).
  assert (Hstep : step_task n ws = Some w').
  { unfold step_task. rewrite Hn. unfold resume. cbn [at_stage training_data].
    by rewrite (run_to_await_next _ _ _ _ Hnext). }
  exists w'. split.
  - eapply rtc_l; [apply (step_submit td)|].
    eapply rtc_l; [|apply rtc_refl].
    eapply (step_start n); [exact Hn | done | | exact Hstep].
    intros j t' Hj Ht'. fold ws in Ht'. rewrite Hts, lookup_app_l in Ht' by done.
    assert (Hst : started t' = true).
    { apply Hall. by eapply list_elem_of_lookup_2. }
    unfold started in Hst. by rewrite bool_decide_eq_true in Hst.
  - split; [fold n; lia|].
    exists t, (Task td (Awaiting c)). simpl.
    split; [|split; [|split]].
    + rewrite list_lookup_insert_ne by (fold n; lia).
      by rewrite lookup_app_l.
    + apply list_lookup_insert_eq. rewrite length_app; simpl. fold n. lia.
    + done.
    + unfold running; simpl. by rewrite bool_decide_eq_true.
Qed.

(** X1: a task of the event loop that is run alone, from its creation
    through each of its resumptions, ends finished and leaves the world
    that the coroutine leaves when run from its first line to its last. *)
Lemma run_task_is_background td w :
  run_task 4 (Task td Created) w = (Finished, snd (retrain_models_background td w)).
Proof.
  run_handler. unfold resume, retrain_order; simpl.
  destruct (td !! "categorization") eqn:Hc, (td !! "fraud_detection") eqn:Hf,
    (td !! "predictions") eqn:Hp; simpl; rewrite ?Hc, ?Hf, ?Hp; simpl;
    repeat match goal with
           | |- context [retrain ?x ?l ?p] =>
               destruct (retrain x l p) as [[[]|?] ?]; simpl;
               rewrite ?Hc, ?Hf, ?Hp; simpl
           end; reflexivity.
Qed.

(** C2, as the code has it: a submission is never held back.  Its task
    is created at once, behind the tasks created before it; the loop
    starts the tasks in the order of their creation (the started tasks are
    always a prefix of the created ones); and no lock keeps two tasks out
    of the same capability: while one task is retraining a capability, a
    newly submitted task whose first capability is the same one starts
    and retrains it at the same time. *)
Theorem retrain_tasks_ordered_not_exclusive (w0 w : World P) :
  tasks w0 = [] ->
  reachable w0 w ->
  started_prefix (tasks w) /\
  (forall td, tasks (snd (retrain_models td w)) = (tasks w ++ [Task td Created])%list) /\
  (forall td i t c,
     tasks w !! i = Some t ->
     running c t = true ->
     (forall t', t' ∈ tasks w -> started t' = true) ->
     next_target td retrain_order = Some c ->
     exists w', reachable w w' /\ both_running c i (length (tasks w)) w').
Proof.
  intros Hempty Hreach. split; [|split].
  - apply (reachable_started_prefix w0 w Hreach). rewrite Hempty.
    intros i j ti tj _ Hi. by rewrite lookup_nil in Hi.
  - reflexivity.
  - intros td i t c. apply second_submission_overlaps.
Qed.

End Loop.

Lemma demo_reaches_retraining : reachable (svc := Demo.svc) Demo.w0 Demo.w_retraining.
Proof.
  eapply rtc_l; [apply (step_submit Demo.td_categorization)|].
  eapply rtc_l; [|apply rtc_refl].
  eapply (step_start 0%nat); [reflexivity | reflexivity | intros j t' Hj; lia | reflexivity].
Qed.

Lemma retrain_tasks_ordered_not_exclusive_witness :
  started_prefix (tasks Demo.w_retraining) /\
  exists w', reachable (svc := Demo.svc) Demo.w_retraining w' /\
             both_running Categorization 0 1 w'.
Proof.
  pose proof (retrain_tasks_ordered_not_exclusive (svc := Demo.svc)
                Demo.w0 Demo.w_retraining eq_refl demo_reaches_retraining)
    as [Hprefix [_ Hoverlap]].
  split; [exact Hprefix|].
  apply (Hoverlap Demo.td_categorization 0%nat
           (Task Demo.td_categorization (Awaiting Categorization)) Categorization);
    [reflexivity | reflexivity | | reflexivity].
  intros t' Ht'. apply list_elem_of_singleton in Ht' as ->. reflexivity.
Defined.

(** C2 fails as stated: two submissions for categorization, the second
    made while the first is retraining, are both inside categorization's
    retraining at once. *)
Lemma same_capability_retrained_concurrently :
  ~ retraining_serialized (svc := Demo.svc) Demo.w0.
Proof.
  intros Hser.
  destruct (second_submission_overlaps (svc := Demo.svc) Demo.td_categorization
              Demo.w_retraining 0%nat
              (Task Demo.td_categorization (Awaiting Categorization)) Categorization)
    as (w' & Hreach & Hboth); [reflexivity | reflexivity | | reflexivity |].
  { intros t' Ht'. apply list_elem_of_singleton in Ht' as ->. reflexivity. }
  refine (Hser w' _ _ _ _ Hboth).
  unfold reachable in *. etrans; [exact demo_reaches_retraining | exact Hreach].
Qed.

(** ** Realtime sessions *)

Section TraceFacts.

Lemma in_flight_cons e evs :
  in_flight (e :: evs) =
    (if is_receive e then 1 else 0) - (if is_send e then 1 else 0) + in_flight evs.
Proof.
  unfold in_flight; simpl. destruct (is_receive e), (is_send e); lia.
Qed.

Lemma in_flight_silent e evs : silent e -> in_flight (e :: evs) = in_flight evs.
Proof. intros [Hr Hs]. rewrite in_flight_cons, Hr, Hs. lia. Qed.

Lemma in_flight_all_silent q : Forall silent q -> in_flight q = 0.
Proof.
  induction 1 as [|e q He _ IH]; [done|]. by rewrite in_flight_silent.
Qed.

Lemma silent_not_receive q (n : nat) f :
  Forall silent q -> q !! n = Some (EReceive f) -> False.
Proof.
  intros Hq Hn. eapply Forall_lookup_1 in Hq as [Hr _]; [|exact Hn]. done.
Qed.

Lemma strictly_paired_silent_cons e evs :
  silent e -> strictly_paired evs -> strictly_paired (e :: evs).
Proof.
  intros He Hevs [|n]; simpl.
  - split; [by vm_compute|]. intros f [= ->]. by destruct He.
  - rewrite in_flight_silent by done. apply Hevs.
Qed.

Lemma session_body_paired evs : session_body evs -> strictly_paired evs.
Proof.
  induction 1 as [f q Hq | f msg rest _ IH].
  - intros [|n]; simpl; [by vm_compute|].
    rewrite in_flight_cons; simpl.
    rewrite in_flight_all_silent by (by apply Forall_take).
    split; [lia|]. intros f' Hn. exfalso. by eapply silent_not_receive.
  - intros [|[|[|[|n]]]]; simpl; rewrite ?in_flight_cons; simpl.
    1-4: split; [by vm_compute | by intros ? [=]].
    destruct (IH n) as [Hb Hr].
    replace (1 - 0 + (0 - 0 + (0 - 0 + (0 - 1 + in_flight (take n rest)))))
      with (in_flight (take n rest)) by lia.
    done.
Qed.

Lemma session_body_app_silent evs q :
  session_body evs -> Forall silent q -> session_body (evs ++ q).
Proof.
  intros Hevs Hq. induction Hevs as [f q' Hq' | f msg rest _ IH]; simpl.
  - apply body_failed. by apply Forall_app.
  - by apply body_answered.
Qed.

End TraceFacts.

Section Sessions.
Context {models : Models} {P : Type} {svc : Services P}.
Implicit Types (w : World P) (f : frame) (inbound : list frame).

Ltac run_exchange :=
  unfold exchange, bind, receive_json, lift, call, utcnow, send_json, ret; simpl.

(** One turn either answers the request or raises without having sent
    anything; what it adds to the trace after the receive are provider
    calls only. *)
Lemma exchange_outcome f w :
  (exists msg w',
     exchange f w = (Ok tt, w') /\
     trace w' = (trace w ++ [EReceive f; ECall OpPredictCategory;
                             ECall OpAnalyzeExpense; ESend msg])%list /\
     logs w' = logs w) \/
  (exists e w' q,
     exchange f w = (Raise e, w') /\
     trace w' = (trace w ++ EReceive f :: q)%list /\
     logs w' = logs w /\
     Forall (fun ev => is_provider_call ev = true) q).
Proof.
  run_exchange. destruct f as [data|raw|]; simpl.
  - destruct (ExpenseData_init data) as [x|e]; simpl.
    + destruct (predict_category x (prov w)) as [[c|e] p1]; simpl.
      * destruct (analyze_expense x None p1) as [[a|e] p2]; simpl.
        -- left. eexists _, _. split; [reflexivity|]. simpl.
           rewrite <- !app_assoc. done.
        -- right. exists e. eexists _, [_; _]. split; [reflexivity|]. simpl.
           rewrite <- !app_assoc; simpl. repeat split; repeat constructor.
      * right. exists e. eexists _, [_]. split; [reflexivity|]. simpl.
        rewrite <- !app_assoc; simpl. repeat split; repeat constructor.
    + right. exists e. eexists _, []. repeat split; constructor.
  - right. eexists _, _, []. repeat split; constructor.
  - right. eexists _, _, []. repeat split; constructor.
Qed.

Lemma exchange_malformed data w e :
  ExpenseData_init data = Raise e ->
  exchange (TextJson data) w = (Raise e, add_event (EReceive (TextJson data)) w).
Proof. intros E. run_exchange. by rewrite E. Qed.

Lemma provider_calls_silent q :
  Forall (fun ev => is_provider_call ev = true) q ->
  Forall silent q /\ (EClose ∉ q) /\ count is_send q = O.
Proof.
  induction 1 as [|ev q Hev _ (IH1 & IH2 & IH3)].
  - split; [constructor | split; [apply not_elem_of_nil | done]].
  - destruct ev; try discriminate Hev. split; [|split].
    + constructor; [by split | done].
    + rewrite elem_of_cons. by intros [?|?].
    + done.
Qed.

(** The loop ends by an exception, whatever the peer delivers. *)
Lemma real_time_loop_outcome inbound w :
  exists e w' evs,
    real_time_loop inbound w = (Raise e, w') /\
    trace w' = (trace w ++ evs)%list /\
    logs w' = logs w /\
    session_body evs /\
    EClose ∉ evs.
Proof.
  revert w. induction inbound as [|f rest IH]; intros w; simpl.
  - eexists _, _, [EReceive Disconnect]. split; [reflexivity|].
    repeat split; [by apply body_failed | ].
    rewrite list_elem_of_singleton. done.
  - unfold bind.
    destruct (exchange_outcome f w)
      as [(msg & w1 & -> & Ht & Hl) | (e & w1 & q & -> & Ht & Hl & Hq)].
    + destruct (IH w1) as (e & w' & evs & -> & Ht' & Hl' & Hbody & Hclose).
      eexists e, w', _. split; [reflexivity|].
      rewrite Ht', Ht, Hl', Hl, <- app_assoc; simpl.
      split; [reflexivity | split; [reflexivity|]].
      split; [by apply body_answered|].
      rewrite !elem_of_cons. intros [?|[?|[?|[?|?]]]]; done.
    + apply provider_calls_silent in Hq as (Hs & Hc & _).
      eexists e, w1, _. repeat split; [exact Ht | exact Hl | by apply body_failed|].
      rewrite elem_of_cons. by intros [?|?].
Qed.

(** What follows a message that does not validate is never received, and
    the responses sent are at most one for each message before it. *)
Lemma real_time_loop_malformed pre data rest w e :
  ExpenseData_init data = Raise e ->
  real_time_loop (pre ++ TextJson data :: rest) w
    = real_time_loop (pre ++ [TextJson data]) w /\
  exists evs,
    trace (snd (real_time_loop (pre ++ TextJson data :: rest) w))
      = (trace w ++ evs)%list /\
    (count is_send evs <= length pre)%nat.
Proof.
  intros E. revert w. induction pre as [|f pre IH]; intros w; simpl.
  - unfold bind. rewrite (exchange_malformed _ _ _ E). split; [done|].
    exists [EReceive (TextJson data)]. split; [done | simpl; lia].
  - unfold bind.
    destruct (exchange_outcome f w)
      as [(msg & w1 & -> & Ht & Hl) | (e' & w1 & q & -> & Ht & Hl & Hq)].
    + destruct (IH w1) as (-> & evs & Ht' & Hcount). split; [done|].
      eexists. rewrite Ht', Ht, <- app_assoc. split; [reflexivity|].
      simpl. lia.
    + split; [done|]. apply provider_calls_silent in Hq as (_ & _ & Hc).
      eexists. split; [exact Ht|]. simpl. lia.
Qed.

Lemma session_outcome inbound w :
  exists e evs,
    fst (websocket_real_time_analysis inbound w) = Ok tt /\
    events_since w (snd (websocket_real_time_analysis inbound w))
      = EAccept :: (evs ++ [EClose])%list /\
    session_body evs /\
    (EClose ∉ evs) /\
    trace (snd (real_time_loop inbound (add_event EAccept w)))
      = ((trace w ++ [EAccept]) ++ evs)%list /\
    logs (snd (websocket_real_time_analysis inbound w))
      = (logs w ++ [(ERROR, ("WebSocket error: " ++ str e)%string)])%list.
Proof.
  destruct (real_time_loop_outcome inbound (add_event EAccept w))
    as (e & w' & evs & Hrun & Ht & Hl & Hbody & Hclose).
  exists e, evs.
  unfold websocket_real_time_analysis, bind, accept, try_except, logger_error, close.
  rewrite Hrun; simpl.
  split; [done|]. split.
  { apply events_since_app; simpl. rewrite Ht; simpl. by rewrite <- !app_assoc. }
  split; [done|]. split; [done|]. split; [done|]. by rewrite Hl.
Qed.

End Sessions.

Section Pairing.
Context {models : Models} {P : Type} {svc : Services P}.
Implicit Types (w : World P) (inbound : list frame).

Lemma in_flight_app l1 l2 : in_flight (l1 ++ l2) = in_flight l1 + in_flight l2.
Proof. unfold in_flight. rewrite !count_app. lia. Qed.

Lemma sent_somewhere l : (0 < count is_send l)%nat -> exists msg, ESend msg ∈ l.
Proof.
  induction l as [|ev l IH]; simpl; [lia|].
  destruct ev; simpl; intros H;
    try (destruct (IH H) as [msg Hmsg]; exists msg; by apply list_elem_of_further).
  eexists. apply list_elem_of_here.
Qed.

(** C7: in the trace of every session the exchanges are strictly paired:
    at any point at most one request is awaiting its response, a message
    is received only when none is, and so between the receipt of a request
    and the receipt of the next one a response has been sent. *)
Theorem session_exchanges_strictly_paired inbound w :
  let evs := events_since w (snd (websocket_real_time_analysis inbound w)) in
  strictly_paired evs /\
  forall l1 f1 l2 f2 l3,
    evs = (l1 ++ EReceive f1 :: l2 ++ EReceive f2 :: l3)%list ->
    exists msg, ESend msg ∈ l2.
Proof.
  intros evs.
  assert (Hpaired : strictly_paired evs).
  { destruct (session_outcome inbound w) as (e & body & _ & Hevs & Hbody & _).
    subst evs. rewrite Hevs.
    apply strictly_paired_silent_cons; [by split|].
    apply session_body_paired, session_body_app_silent; [done|].
    by repeat constructor. }
  split; [exact Hpaired|].
  intros l1 f1 l2 f2 l3 Hsplit.
  destruct (Hpaired (length l1)) as [_ H1].
  specialize (H1 f1). rewrite Hsplit, list_lookup_middle, take_app_length in H1 by done.
  specialize (H1 eq_refl).
  destruct (Hpaired (length (l1 ++ EReceive f1 :: l2))) as [_ H2].
  specialize (H2 f2).
  rewrite Hsplit in H2.
  replace (l1 ++ EReceive f1 :: l2 ++ EReceive f2 :: l3)%list
    with ((l1 ++ EReceive f1 :: l2) ++ EReceive f2 :: l3)%list in H2
    by (by rewrite <- app_assoc).
  rewrite list_lookup_middle, take_app_length in H2 by done.
  specialize (H2 eq_refl).
  rewrite in_flight_app, in_flight_cons, H1 in H2; simpl in H2.
  apply sent_somewhere. unfold in_flight in H2. lia.
Qed.

(** C6, as the code has it: a message that does not validate gets no
    answer.  The session logs "WebSocket error: ..." and closes; what the
    peer sends after that message is never received, and the responses
    sent are at most one for each message before it.  When the message is
    the first of the session, the session accepts, receives it, and
    closes. *)
Theorem malformed_message_closes_session pre data rest w e :
  ExpenseData_init data = Raise e ->
  let run := websocket_real_time_analysis (pre ++ TextJson data :: rest) w in
  run = websocket_real_time_analysis (pre ++ [TextJson data]) w /\
  fst run = Ok tt /\
  (exists evs,
     events_since w (snd run) = EAccept :: (evs ++ [EClose])%list /\
     (EClose ∉ evs) /\
     (count is_send evs <= length pre)%nat) /\
  (exists reason,
     logs (snd run) = (logs w ++ [(ERROR, ("WebSocket error: " ++ reason)%string)])%list) /\
  (pre = [] ->
     events_since w (snd run) = [EAccept; EReceive (TextJson data); EClose] /\
     logs (snd run) = (logs w ++ [(ERROR, ("WebSocket error: " ++ str e)%string)])%list).
Proof.
  intros E run.
  destruct (session_outcome (pre ++ TextJson data :: rest) w)
    as (e' & evs & Hok & Hevs & _ & Hclose & Htrace & Hlogs).
  destruct (real_time_loop_malformed pre data rest (add_event EAccept w) e E)
    as (Hsame & evs' & Htrace' & Hcount).
  split; [|split; [exact Hok | split; [|split]]].
  - subst run. unfold websocket_real_time_analysis, bind, accept, try_except.
    by rewrite Hsame.
  - exists evs. split; [exact Hevs | split; [exact Hclose|]].
    rewrite Htrace in Htrace'. simpl in Htrace'.
    apply app_inv_head in Htrace'. by subst evs'.
  - by exists (str e').
  - intros ->. subst run.
    unfold websocket_real_time_analysis, bind, accept, try_except, logger_error, close.
    simpl. unfold bind. rewrite (exchange_malformed _ _ _ E); simpl.
    split; [|done]. apply events_since_app; simpl. by rewrite <- !app_assoc.
Qed.

End Pairing.

Lemma session_exchanges_strictly_paired_witness :
  exists msg,
    ESend msg ∈ [ECall OpPredictCategory; ECall OpAnalyzeExpense; ESend Demo.taxi_response].
Proof.
  apply (proj2 (session_exchanges_strictly_paired (svc := Demo.svc)
                  [TextJson Demo.taxi; TextJson Demo.taxi] Demo.w0)
           [EAccept] (TextJson Demo.taxi)
           [ECall OpPredictCategory; ECall OpAnalyzeExpense; ESend Demo.taxi_response]
           (TextJson Demo.taxi)
           [ECall OpPredictCategory; ECall OpAnalyzeExpense; ESend Demo.taxi_response;
            EReceive Disconnect; EClose]).
  reflexivity.
Defined.

Lemma malformed_message_closes_session_witness :
  websocket_real_time_analysis (svc := Demo.svc)
    ([TextJson Demo.taxi] ++ TextJson Demo.no_description :: [TextJson Demo.taxi]) Demo.w0
  = websocket_real_time_analysis (svc := Demo.svc)
      ([TextJson Demo.taxi] ++ [TextJson Demo.no_description]) Demo.w0.
Proof.
  apply (malformed_message_closes_session (svc := Demo.svc)
           [TextJson Demo.taxi] Demo.no_description [TextJson Demo.taxi] Demo.w0
           (Error "ValidationError" "description: field required") eq_refl).
Defined.

(** C6 fails as stated: a first message without a description is not
    answered, and the message after it is not received; the session has
    closed. *)
Lemma malformed_message_ends_session :
  ~ malformed_keeps_session_open (svc := Demo.svc).
Proof.
  intros H.
  pose proof (H Demo.no_description [TextJson Demo.taxi] Demo.w0 eq_refl) as H'.
  cbv zeta in H'.
  assert (Hevs : events_since Demo.w0
                   (snd (websocket_real_time_analysis (svc := Demo.svc)
                           [TextJson Demo.no_description; TextJson Demo.taxi] Demo.w0))
                 = [EAccept; EReceive (TextJson Demo.no_description); EClose])
    by (vm_compute; reflexivity).
  rewrite Hevs in H'. destruct H' as [[msg Hsend] _].
  rewrite !elem_of_cons, elem_of_nil in Hsend.
  destruct Hsend as [?|[?|[?|[]]]]; discriminate.
Qed.

Lemma file_path_is_the_filename_witness :
  file_path Demo.receipt = file_path Demo.other_receipt.
Proof.
  by apply (file_path_is_the_filename Demo.receipt Demo.other_receipt).
Defined.

(** ** Realtime sessions: what every session does *)

Section SessionCourse.
Context {models : Models} {P : Type} {svc : Services P}.
Implicit Types (w : World P) (f : frame) (inbound : list frame).

Ltac run_turn :=
  unfold exchange, bind, receive_json, lift, call, utcnow, send_json, ret; simpl.

Lemma received_app l1 l2 : received (l1 ++ l2) = (received l1 ++ received l2)%list.
Proof. apply omap_app. Qed.

(** One turn: the receipt, then provider calls and at most one response;
    a response exactly when the turn returns.  Log, clock, files and tasks
    are left alone. *)
Lemma exchange_trace f w :
  exists r w' q,
    exchange f w = (r, w') /\
    trace w' = (trace w ++ EReceive f :: q)%list /\
    (logs w' = logs w /\ clock w' = clock w /\ files w' = files w /\ tasks w' = tasks w) /\
    Forall (session_event (clock w)) q /\
    received q = [] /\
    count is_send q = (if is_Ok r then 1 else 0)%nat.
Proof.
  run_turn. destruct f as [data|raw|]; simpl.
  - destruct (ExpenseData_init data) as [x|e]; simpl.
    + destruct (predict_category x (prov w)) as [[c|e] p1]; simpl.
      * destruct (analyze_expense x None p1) as [[a|e] p2]; simpl.
        -- eexists _, _, [_; _; _]. split; [reflexivity|]. simpl.
           rewrite <- !app_assoc. split; [reflexivity|]. split; [done|].
           split; [|done].
           repeat first [apply List.Forall_nil | apply List.Forall_cons]; simpl; eauto.
        -- eexists _, _, [_; _]. split; [reflexivity|]. simpl.
           rewrite <- !app_assoc. split; [reflexivity|]. split; [done|].
           split; [|done].
           repeat first [apply List.Forall_nil | apply List.Forall_cons]; simpl; eauto.
      * eexists _, _, [_]. split; [reflexivity|]. simpl.
        rewrite <- !app_assoc. split; [reflexivity|]. split; [done|].
        split; [|done].
           repeat first [apply List.Forall_nil | apply List.Forall_cons]; simpl; eauto.
    + eexists _, _, []. repeat split; constructor.
  - eexists _, _, []. repeat split; constructor.
  - eexists _, _, []. repeat split; constructor.
Qed.

Lemma exchange_answerable f w :
  answerable f -> is_Ok (fst (exchange f w)) = true.
Proof.
  intros (data & x & -> & Hinit & Hcat & Hfraud).
  run_turn. rewrite Hinit; simpl.
  pose proof (Hcat (prov w)) as Hc.
  destruct (predict_category x (prov w)) as [[c|e] p1]; simpl in *; [|done].
  pose proof (Hfraud p1) as Hf.
  destruct (analyze_expense x None p1) as [[a|e] p2]; simpl in *; done.
Qed.

Lemma exchange_unanswerable f w :
  unanswerable f -> is_Ok (fst (exchange f w)) = false.
Proof.
  intros [[raw ->] | [-> | [(data & -> & Hinit) | (data & x & -> & Hinit & Hfail)]]];
    run_turn; try done.
  - by destruct (ExpenseData_init data).
  - rewrite Hinit; simpl.
    destruct Hfail as [Hcat | Hfraud].
    + pose proof (Hcat (prov w)) as Hc.
      destruct (predict_category x (prov w)) as [[c|e] p1]; simpl in *; done.
    + destruct (predict_category x (prov w)) as [[c|e] p1]; simpl in *; [|done].
      pose proof (Hfraud p1) as Hf.
      destruct (analyze_expense x None p1) as [[a|e] p2]; simpl in *; done.
Qed.

Lemma real_time_loop_trace inbound w :
  exists e w' evs,
    real_time_loop inbound w = (Raise e, w') /\
    trace w' = (trace w ++ evs)%list /\
    (logs w' = logs w /\ clock w' = clock w /\ files w' = files w /\ tasks w' = tasks w) /\
    Forall (session_event (clock w)) evs /\
    received evs `prefix_of` (inbound ++ [Disconnect])%list /\
    (count is_send evs <= length inbound)%nat.
Proof.
  revert w. induction inbound as [|f rest IH]; intros w; simpl.
  - exists (Error "WebSocketDisconnect" "1000"). eexists _, [EReceive Disconnect].
    split; [reflexivity|]. repeat split; try done.
    repeat constructor.
  - unfold bind.
    destruct (exchange_trace f w)
      as (r & w1 & q & -> & Ht & (Hl & Hc & Hf & Hts) & Hq & Hrec & Hsend).
    destruct r as [[]|e]; simpl in Hsend.
    + destruct (IH w1)
        as (e & w' & evs & -> & Ht' & (Hl' & Hc' & Hf' & Hts') & Hevs & Hpre & Hcount).
      exists e, w', ((EReceive f :: q) ++ evs)%list.
      split; [reflexivity|].
      split; [by rewrite Ht', Ht, <- app_assoc|].
      split; [by rewrite Hl', Hc', Hf', Hts', Hl, Hc, Hf, Hts|].
      split.
      { apply Forall_app. split; [by constructor|]. by rewrite <- Hc. }
      split.
      { rewrite received_app; simpl. rewrite Hrec; simpl. by apply prefix_cons. }
      rewrite count_app; simpl. lia.
    + exists e, w1, (EReceive f :: q).
      split; [reflexivity|]. split; [exact Ht|]. split; [done|].
      split; [by constructor|].
      split.
      { simpl. rewrite Hrec. apply prefix_cons, prefix_nil. }
      simpl. lia.
Qed.


Lemma real_time_loop_answerable inbound w :
  Forall answerable inbound ->
  exists w' evs,
    real_time_loop inbound w = (Raise (Error "WebSocketDisconnect" "1000"), w') /\
    trace w' = (trace w ++ evs)%list /\
    received evs = (inbound ++ [Disconnect])%list /\
    count is_send evs = length inbound.
Proof.
  intros Hall. revert w. induction Hall as [|f rest Hf _ IH]; intros w; simpl.
  - eexists _, [EReceive Disconnect]. by repeat split.
  - unfold bind.
    pose proof (exchange_answerable f w Hf) as Hok.
    destruct (exchange_trace f w)
      as (r & w1 & q & Hex & Ht & _ & _ & Hrec & Hsend).
    rewrite Hex in Hok |- *. destruct r as [[]|e]; simpl in Hok, Hsend; [|done].
    destruct (IH w1) as (w' & evs & -> & Ht' & Hrec' & Hcount).
    exists w', ((EReceive f :: q) ++ evs)%list.
    split; [reflexivity|].
    split; [by rewrite Ht', Ht, <- app_assoc|].
    split.
    { rewrite received_app; simpl. by rewrite Hrec, Hrec'. }
    rewrite count_app; simpl. lia.
Qed.


Lemma real_time_loop_unanswerable pre f rest w :
  unanswerable f ->
  real_time_loop (pre ++ f :: rest) w = real_time_loop (pre ++ [f]) w /\
  exists evs,
    trace (snd (real_time_loop (pre ++ f :: rest) w)) = (trace w ++ evs)%list /\
    (count is_send evs <= length pre)%nat.
Proof.
  intros Hf. revert w. induction pre as [|g pre IH]; intros w; simpl; unfold bind.
  - pose proof (exchange_unanswerable f w Hf) as Hfail.
    destruct (exchange_trace f w) as (r & w1 & q & Hex & Ht & _ & _ & _ & Hsend).
    rewrite Hex in Hfail |- *. destruct r as [[]|e]; simpl in Hfail, Hsend; [done|].
    split; [done|]. eexists. split; [exact Ht|]. simpl. lia.
  - destruct (exchange_trace g w) as (r & w1 & q & -> & Ht & _ & _ & _ & Hsend).
    destruct r as [[]|e]; simpl in Hsend.
    + destruct (IH w1) as (-> & evs & Ht' & Hcount). split; [done|].
      exists ((EReceive g :: q) ++ evs)%list.
      split; [by rewrite Ht', Ht, <- app_assoc|].
      rewrite count_app; simpl. lia.
    + split; [done|]. eexists. split; [exact Ht|]. simpl. lia.
Qed.

(** X5: a frame that the loop cannot answer ends the session, whatever
    kind of failure it is: text that is no JSON, the disconnect, a message
    that does not validate, or a message that one of the two providers
    fails on.  What the peer delivers after such a frame changes nothing in
    what the session does, and the session sends at most one response for
    each frame before it. *)
Theorem unanswerable_frame_ends_session pre f rest w :
  unanswerable f ->
  websocket_real_time_analysis (pre ++ f :: rest) w
    = websocket_real_time_analysis (pre ++ [f]) w /\
  (count is_send
     (events_since w (snd (websocket_real_time_analysis (pre ++ f :: rest) w)))
   <= length pre)%nat.
Proof.
  intros Hf.
  destruct (real_time_loop_unanswerable pre f rest (add_event EAccept w) Hf)
    as (Hsame & evs & Ht & Hcount).
  split.
  { unfold websocket_real_time_analysis, bind, accept, try_except. by rewrite Hsame. }
  destruct (real_time_loop_trace (pre ++ f :: rest) (add_event EAccept w))
    as (e & w' & evs' & Hrun & Ht' & _).
  rewrite Hrun in Ht. simpl in Ht. rewrite Ht' in Ht.
  apply app_inv_head in Ht. subst evs'.
  assert (Hevs : events_since w (snd (websocket_real_time_analysis (pre ++ f :: rest) w))
                 = EAccept :: (evs ++ [EClose])%list).
  { unfold websocket_real_time_analysis, bind, accept, try_except, logger_error, close.
    rewrite Hrun; simpl. apply events_since_app; simpl. rewrite Ht'; simpl.
    by rewrite <- !app_assoc. }
  rewrite Hevs; simpl. rewrite count_app; simpl. lia.
Qed.

End SessionCourse.

(** ** Retraining: how tasks move on the event loop *)

Section TaskProgress.
Context {models : Models} {P : Type} {svc : Services P}.
Implicit Types (td : gmap string (list value)) (w : World P) (t : task).

(** Where the coroutine stops next: at the end, or in the call for a
    capability of [todo] that the payload names. *)
Lemma run_to_await_stage td todo w :
  (run_to_await td todo w).1 = Finished \/
  exists c, (run_to_await td todo w).1 = Awaiting c /\ c ∈ todo /\
            is_Some (td !! capability_key c).
Proof.
  induction todo as [|c rest IH]; simpl; [by left|].
  destruct (td !! capability_key c) as [ex|] eqn:E; simpl.
  - right. exists c. split; [done|]. split; [apply list_elem_of_here | by eexists].
  - destruct IH as [IH | (c' & Hst & Hin & Hsome)]; [by left|].
    right. exists c'. split; [done|]. split; [by apply list_elem_of_further | done].
Qed.

Lemma after_rank c c' :
  c' ∈ after c -> (stage_rank (Awaiting c) < stage_rank (Awaiting c'))%nat.
Proof. destruct c, c'; simpl; intros H; try lia; exfalso; set_solver. Qed.

Lemma stage_rank_created s : s <> Created -> (0 < stage_rank s)%nat.
Proof. destruct s as [|[]|]; simpl; intros; try lia; done. Qed.

Lemma stage_rank_bound s : (stage_rank s <= 4)%nat.
Proof. destruct s as [|[]|]; simpl; lia. Qed.

Lemma stage_rank_finished s : stage_rank s = 4%nat -> s = Finished.
Proof. by destruct s as [|[]|]. Qed.

(** A resumption moves its task strictly forward, into a stage whose
    capability the payload names, and leaves every other task alone. *)
Lemma step_task_advances i w w' :
  step_task i w = Some w' ->
  exists t st,
    tasks w !! i = Some t /\
    tasks w' = <[i := Task (training_data t) st]> (tasks w) /\
    (stage_rank (at_stage t) < stage_rank st)%nat /\
    (forall c, st = Awaiting c -> is_Some (training_data t !! capability_key c)).
Proof.
  unfold step_task, resume. intros H.
  destruct (tasks w !! i) as [t|] eqn:Ht; [|done].
  exists t. destruct (at_stage t) as [|c|] eqn:Hs; [| |done].
  - pose proof (run_to_await_tasks (training_data t) retrain_order
                  (add_log INFO "Starting model retraining process..." w)) as [Hts Hne].
    pose proof (run_to_await_stage (training_data t) retrain_order
                  (add_log INFO "Starting model retraining process..." w)) as Hstage.
    destruct (run_to_await _ _ _) as [st w1]; simpl in *.
    injection H as <-. exists st. split; [done|]. split; [by rewrite Hts|].
    split; [by apply stage_rank_created|].
    intros c ->. destruct Hstage as [? | (c' & [= <-] & _ & Hsome)]; done.
  - destruct (retrain c _ (prov w)) as [[u|e] p'].
    + pose proof (run_to_await_tasks (training_data t) (after c) (set_prov p' w))
        as [Hts Hne].
      pose proof (run_to_await_stage (training_data t) (after c) (set_prov p' w))
        as Hstage.
      destruct (run_to_await _ _ _) as [st w1]; simpl in *.
      injection H as <-. exists st. split; [done|]. split; [by rewrite Hts|].
      destruct Hstage as [-> | (c' & -> & Hin & Hsome)].
      * split; [destruct c; simpl; lia | done].
      * split; [by apply after_rank | by intros ? [= <-]].
    + injection H as <-. exists Finished. split; [done|]. split; [done|].
      split; [destruct c; simpl; lia | done].
Qed.

Lemma loop_step_advances w w' i t :
  loop_step w w' ->
  tasks w !! i = Some t ->
  exists t', tasks w' !! i = Some t' /\
             training_data t' = training_data t /\
             (stage_rank (at_stage t) <= stage_rank (at_stage t'))%nat.
Proof.
  intros Hstep Hi.
  assert (Hres : forall k w1, step_task k w = Some w1 ->
            exists t', tasks w1 !! i = Some t' /\
                       training_data t' = training_data t /\
                       (stage_rank (at_stage t) <= stage_rank (at_stage t'))%nat).
  { intros k w1 Hk.
    apply step_task_advances in Hk as (t0 & st & Hk & -> & Hlt & _).
    destruct (decide (k = i)) as [->|Hne].
    - assert (t0 = t) as -> by congruence.
      exists (Task (training_data t) st).
      rewrite list_lookup_insert_eq by (by eapply lookup_lt_Some).
      split; [done|]. split; [done|]. simpl. lia.
    - exists t. by rewrite list_lookup_insert_ne. }
  destruct Hstep as [td w | k t0 w w1 _ _ _ Hk | k t0 c w w1 _ _ Hk]; eauto.
  exists t. simpl. by rewrite lookup_app_l by (by eapply lookup_lt_Some).
Qed.

(** X6: whatever the process does, a task stays in the list at its place
    with the payload it was submitted with, and its coroutine only moves
    forward through created, categorization, fraud detection, predictions,
    finished; a finished task stays finished and is not run again. *)
Theorem tasks_only_advance w w' i t :
  reachable w w' ->
  tasks w !! i = Some t ->
  exists t', tasks w' !! i = Some t' /\
             training_data t' = training_data t /\
             (stage_rank (at_stage t) <= stage_rank (at_stage t'))%nat /\
             (at_stage t = Finished -> t' = t /\ step_task i w' = None).
Proof.
  intros Hreach. revert t. induction Hreach as [w|w w1 w2 Hstep _ IH]; intros t Hi.
  - exists t. split; [done|]. split; [done|]. split; [done|].
    intros Hfin. split; [done|]. unfold step_task, resume. by rewrite Hi, Hfin.
  - destruct (loop_step_advances _ _ _ _ Hstep Hi) as (t1 & Hi1 & Htd1 & Hr1).
    destruct (IH t1 Hi1) as (t2 & Hi2 & Htd2 & Hr2 & Hfin2).
    exists t2. split; [done|]. split; [congruence|]. split; [lia|].
    intros Hfin. rewrite Hfin in Hr1; simpl in Hr1.
    assert (Hfin1 : at_stage t1 = Finished).
    { apply stage_rank_finished. pose proof (stage_rank_bound (at_stage t1)). lia. }
    destruct (Hfin2 Hfin1) as [-> Hnone]. split; [|done].
    destruct t, t1; simpl in *; congruence.
Qed.

Lemma loop_step_awaits_named w w' :
  loop_step w w' -> Forall awaits_named (tasks w) -> Forall awaits_named (tasks w').
Proof.
  intros Hstep Hall.
  assert (Hres : forall k w1, step_task k w = Some w1 -> Forall awaits_named (tasks w1)).
  { intros k w1 Hk.
    apply step_task_advances in Hk as (t0 & st & Hk & -> & _ & Hnamed).
    apply Forall_insert; [done|]. intros c Hc; simpl in *. by apply Hnamed. }
  destruct Hstep as [td w | k t0 w w1 _ _ _ Hk | k t0 c w w1 _ _ Hk]; eauto.
  simpl. apply Forall_app. split; [done|].
  apply Forall_singleton. intros c Hc; simpl in Hc. done.
Qed.

(** X7: a task only ever waits for the retraining of a capability that
    its payload names: in every world the process reaches from one where
    this holds (one without tasks, say), every suspended task has examples
    in its payload for the capability it is suspended in. *)
Theorem tasks_await_named_capabilities w0 w :
  reachable w0 w ->
  Forall awaits_named (tasks w0) ->
  Forall awaits_named (tasks w).
Proof.
  induction 1 as [|w1 w2 w3 Hstep _ IH]; [done|].
  intros Hall. apply IH. by eapply loop_step_awaits_named.
Qed.

(** The coroutine does not look at the task list. *)
Lemma run_to_await_set_tasks td todo ts w :
  run_to_await td todo (set_tasks ts w)
    = ((run_to_await td todo w).1, set_tasks ts (run_to_await td todo w).2).
Proof.
  induction todo as [|c rest IH]; simpl; [done|].
  by destruct (td !! capability_key c).
Qed.

Lemma resume_set_tasks t ts w :
  resume t (set_tasks ts w)
    = match resume t w with
      | Some (st, w') => Some (st, set_tasks ts w')
      | None => None
      end.
Proof.
  unfold resume. destruct (at_stage t) as [|c|]; [| |done].
  - change (add_log INFO "Starting model retraining process..." (set_tasks ts w))
      with (set_tasks ts (add_log INFO "Starting model retraining process..." w)).
    rewrite run_to_await_set_tasks. by destruct (run_to_await _ _ _).
  - simpl. destruct (retrain c _ (prov w)) as [[u|e] p']; [|done].
    change (set_prov p' (set_tasks ts w)) with (set_tasks ts (set_prov p' w)).
    rewrite run_to_await_set_tasks. by destruct (run_to_await _ _ _).
Qed.

Lemma run_task_set_tasks fuel t ts w :
  run_task fuel t (set_tasks ts w)
    = ((run_task fuel t w).1, set_tasks ts (run_task fuel t w).2).
Proof.
  revert t w. induction fuel as [|n IH]; intros t w; simpl; [done|].
  rewrite resume_set_tasks. destruct (resume t w) as [[st w1]|]; [apply IH | done].
Qed.

Lemma resume_tasks t w st w1 :
  resume t w = Some (st, w1) -> tasks w1 = tasks w /\ st <> Created.
Proof.
  unfold resume. destruct (at_stage t) as [|c|]; [| |done].
  - pose proof (run_to_await_tasks (training_data t) retrain_order
                  (add_log INFO "Starting model retraining process..." w)) as [H1 H2].
    destruct (run_to_await _ _ _) as [st' w']. by intros [= <- <-].
  - destruct (retrain c _ (prov w)) as [[u|e] p'].
    + pose proof (run_to_await_tasks (training_data t) (after c) (set_prov p' w))
        as [H1 H2].
      destruct (run_to_await _ _ _) as [st' w']. by intros [= <- <-].
    + by intros [= <- <-].
Qed.

Lemma set_tasks_same w : set_tasks (tasks w) w = w.
Proof. by destruct w. Qed.

(** The loop can run a task the way [run_task] does, resumption by
    resumption. *)
Lemma run_task_reachable fuel t w i :
  tasks w !! i = Some t ->
  (at_stage t = Created ->
   forall j t', (j < i)%nat -> tasks w !! j = Some t' -> at_stage t' <> Created) ->
  reachable w
    (set_tasks (<[i := Task (training_data t) (run_task fuel t w).1]> (tasks w))
       (run_task fuel t w).2).
Proof.
  revert t w. induction fuel as [|n IH]; intros t w Hi Hfifo; simpl.
  { replace (Task (training_data t) (at_stage t)) with t by (by destruct t).
    rewrite list_insert_id, set_tasks_same by done. apply rtc_refl. }
  destruct (resume t w) as [[st w1]|] eqn:Hres; simpl.
  2:{ replace (Task (training_data t) (at_stage t)) with t by (by destruct t).
      rewrite list_insert_id, set_tasks_same by done. apply rtc_refl. }
  destruct (resume_tasks _ _ _ _ Hres) as [Hts Hne].
  set (t2 := Task (training_data t) st).
  set (w2 := set_tasks (<[i := t2]> (tasks w1)) w1).
  assert (Hstep : step_task i w = Some w2).
  { unfold step_task. by rewrite Hi, Hres. }
  assert (Hloop : loop_step w w2).
  { destruct (at_stage t) as [|c|] eqn:Hs.
    - eapply step_start; eauto.
    - eapply step_complete; eauto.
    - unfold resume in Hres. by rewrite Hs in Hres. }
  eapply rtc_l; [exact Hloop|].
  assert (Hi2 : tasks w2 !! i = Some t2).
  { subst w2; simpl. apply list_lookup_insert_eq. rewrite Hts.
    by eapply lookup_lt_Some. }
  specialize (IH t2 w2 Hi2).
  subst w2. rewrite run_task_set_tasks in IH. simpl in IH.
  rewrite list_insert_insert_eq in IH. rewrite <- Hts.
  apply IH. intros Hc. by destruct Hne.
Qed.

Lemma run_task_finishes td w :
  run_task 4 (Task td Created) w = (Finished, snd (retrain_models_background td w)).
Proof.
  unfold retrain_models_background, retrain_if_present, try_except, bind, call,
    logger_info, logger_error, ret; simpl.
  unfold resume, retrain_order; simpl.
  destruct (td !! "categorization") eqn:Hc, (td !! "fraud_detection") eqn:Hf,
    (td !! "predictions") eqn:Hp; simpl; rewrite ?Hc, ?Hf, ?Hp; simpl;
    repeat match goal with
           | |- context [retrain ?x ?l ?p] =>
               destruct (retrain x l p) as [[[]|?] ?]; simpl;
               rewrite ?Hc, ?Hf, ?Hp; simpl
           end; reflexivity.
Qed.

(** X8: a submission and the loop together do what the coroutine does.
    When every task created before has been started, the process can go from
    the submission to a world in which the new task is finished, and that
    world is the one the coroutine leaves when it is run, from its first
    line to its last, right after the submission. *)
Theorem submitted_task_runs_to_completion td w :
  (forall t', t' ∈ tasks w -> started t' = true) ->
  reachable w
    (set_tasks (tasks w ++ [Task td Finished])
       (snd (retrain_models_background td (snd (retrain_models td w))))).
Proof.
  intros Hall.
  set (ws := snd (retrain_models td w)).
  assert (Hts : tasks ws = (tasks w ++ [Task td Created])%list) by reflexivity.
  eapply rtc_l; [apply (step_submit td)|]. fold ws.
  pose proof (run_task_reachable 4 (Task td Created) ws (length (tasks w))) as Hrun.
  rewrite run_task_finishes in Hrun. cbn [fst snd training_data] in Hrun.
  rewrite Hts in Hrun.
  replace (<[length (tasks w) := Task td Finished]> (tasks w ++ [Task td Created])%list)
    with (tasks w ++ [Task td Finished])%list in Hrun.
  2:{ replace (length (tasks w)) with (length (tasks w) + 0)%nat by lia.
      by rewrite insert_app_r. }
  apply Hrun.
  - by apply list_lookup_middle.
  - intros _ j t' Hj Ht'. rewrite lookup_app_l in Ht' by done.
    assert (Hst : started t' = true).
    { apply Hall. by eapply list_elem_of_lookup_2. }
    unfold started in Hst. by rewrite bool_decide_eq_true in Hst.
Qed.

End TaskProgress.

(** ** Retraining: what one run of the coroutine covers *)

Section BackgroundTargets.
Context {models : Models} {P : Type} {svc : Services P}.
Implicit Types (td : gmap string (list value)) (w : World P).

Lemma background_never_raises td w :
  fst (retrain_models_background td w) = Ok tt.
Proof.
  run_handler.
  repeat match goal with
         | |- context [match ?t !! ?k with _ => _ end] =>
             destruct (t !! k) eqn:?; simpl
         | |- context [retrain ?x ?l ?p] =>
             destruct (retrain x l p) as [[[]|?] ?]; simpl
         end; reflexivity.
Qed.

Lemma background_calls_prefix td w :
  events_since w (snd (retrain_models_background td w))
    `prefix_of` map (fun c => ECall (OpRetrain c)) (targets td).
Proof.
  run_handler. unfold targets, retrain_order; simpl.
  destruct (td !! "categorization") eqn:Hc, (td !! "fraud_detection") eqn:Hf,
    (td !! "predictions") eqn:Hp; simpl;
    repeat match goal with
           | |- context [retrain ?x ?l ?p] =>
               destruct (retrain x l p) as [[[]|?] ?]; simpl
           end;
    since_trace; eexists; simpl; reflexivity.
Qed.

Lemma background_all_succeed td w :
  (forall c ex p, td !! capability_key c = Some ex ->
                  is_Ok (fst (retrain c ex p)) = true) ->
  events_since w (snd (retrain_models_background td w))
    = map (fun c => ECall (OpRetrain c)) (targets td) /\
  logs (snd (retrain_models_background td w))
    = (logs w ++ [(INFO, "Starting model retraining process...");
                  (INFO, "Model retraining completed successfully")])%list.
Proof.
  intros Hsucc. run_handler. unfold targets, retrain_order; simpl.
  destruct (td !! "categorization") eqn:Hc, (td !! "fraud_detection") eqn:Hf,
    (td !! "predictions") eqn:Hp; simpl;
    repeat match goal with
           | Hl : td !! _ = Some ?l |- context [retrain ?c ?l ?p] =>
               let R := fresh "R" in
               pose proof (Hsucc c l p Hl) as R;
               destruct (retrain c l p) as [[[]|?] ?]; simpl in R;
               [|discriminate R]; clear R; simpl
           end;
    (split; [since_trace; reflexivity | by rewrite <- ?app_assoc]).
Qed.

(** X9: one run of the background coroutine never raises, and the
    retrainings it calls are an initial part of the capabilities the payload
    targets, in the order categorization, fraud detection, predictions, each
    at most once.  When the retraining of every targeted capability
    succeeds, it calls them all and logs the start and the completion; no
    untargeted capability is ever retrained. *)
Theorem background_retrains_targets td w :
  fst (retrain_models_background td w) = Ok tt /\
  events_since w (snd (retrain_models_background td w))
    `prefix_of` map (fun c => ECall (OpRetrain c)) (targets td) /\
  ((forall c ex p, td !! capability_key c = Some ex ->
                   is_Ok (fst (retrain c ex p)) = true) ->
   events_since w (snd (retrain_models_background td w))
     = map (fun c => ECall (OpRetrain c)) (targets td) /\
   logs (snd (retrain_models_background td w))
     = (logs w ++ [(INFO, "Starting model retraining process...");
                   (INFO, "Model retraining completed successfully")])%list).
Proof.
  split; [apply background_never_raises|].
  split; [apply background_calls_prefix | apply background_all_succeed].
Qed.

End BackgroundTargets.

(** ** Uploaded artifacts: what else the handlers touch *)

Section ArtifactFrame.
Context {models : Models} {P : Type} {svc : Services P}.
Implicit Types (w : World P) (file : UploadFile).

Lemma validate_receipt_frame file w path :
  path <> file_path file ->
  files (snd (validate_receipt file w)) !! path = files w !! path.
Proof.
  intros Hne.
  unfold validate_receipt, try_except, bind, open_wb, buffer_write, call_fs, call,
    os_remove, logger_info, logger_error, raise, ret; simpl.
  rewrite stored_once.
  destruct (svc_validate_receipt _ _ _) as [[r|e] p']; simpl.
  - rewrite lookup_insert_eq; simpl. rewrite delete_insert_eq.
    by rewrite lookup_delete_ne.
  - by rewrite lookup_insert_ne.
Qed.

Lemma enhanced_ocr_frame file enhance w path :
  path <> file_path file ->
  files (snd (enhanced_ocr_processing file enhance w)) !! path = files w !! path.
Proof.
  intros Hne.
  unfold enhanced_ocr_processing, try_except, bind, open_wb, buffer_write, call_fs,
    call, os_remove, logger_info, logger_error, raise, ret; simpl.
  rewrite stored_once.
  destruct (process_receipt _ _ _ _) as [[r|e] p']; simpl.
  - rewrite lookup_insert_eq; simpl. rewrite delete_insert_eq.
    by rewrite lookup_delete_ne.
  - by rewrite lookup_insert_ne.
Qed.




End ArtifactFrame.

(** ** The other handlers *)

Ltac run_other :=
  unfold categorize_expense, detect_fraud, assess_risk_score, analyze_spending_trends,
    predict_approval_time, auto_tag_expense, get_model_performance,
    try_except, bind, call, invoke, utcnow, logger_info, logger_error, ret, raise;
  simpl.

Section OtherHandlerFacts.
Context {models : Models} {amodels : AnalysisModels} {P : Type}.
Context {svc : Services P} {asvc : AnalysisServices P}.
Implicit Types (w : World P) (e : ExpenseData).

(** X13: the four handlers that make one provider call each answer with
    what the provider returns and add nothing of their own but the time and,
    for the approval estimate, the fixed confidence 0.85.  When the provider
    raises, whatever it raises, the caller gets the endpoint's own status
    500 and fixed detail; the provider's error text goes to the log, as one
    ERROR line, and not into the answer. *)
Theorem single_call_handlers_outcome e history policies approvals w :
  (match predict_category e (prov w) with
   | (Ok c, _) => fst (categorize_expense e w) = Ok c
   | (Raise x, _) =>
       fst (categorize_expense e w) = Raise (HTTPException 500 "Failed to categorize expense") /\
       logs (snd (categorize_expense e w))
         = (logs w ++ [(ERROR, ("Categorization error: " ++ str x)%string)])%list
   end) /\
  (match analyze_expense e history (prov w) with
   | (Ok a, _) => fst (detect_fraud e history w) = Ok a
   | (Raise x, _) =>
       fst (detect_fraud e history w)
         = Raise (HTTPException 500 "Failed to analyze expense for fraud") /\
       logs (snd (detect_fraud e history w))
         = (logs w ++ [(ERROR, ("Fraud detection error: " ++ str x)%string)])%list
   end) /\
  (match calculate_risk_score e policies (prov w) with
   | (Ok s, _) =>
       fst (assess_risk_score e policies w)
         = Ok {| risk_score := s; risk_timestamp := clock w |}
   | (Raise x, _) =>
       fst (assess_risk_score e policies w)
         = Raise (HTTPException 500 "Failed to assess risk score") /\
       logs (snd (assess_risk_score e policies w))
         = (logs w ++ [(ERROR, ("Risk assessment error: " ++ str x)%string)])%list
   end) /\
  (match svc_predict_approval_time e approvals (prov w) with
   | (Ok h, _) =>
       fst (predict_approval_time e approvals w)
         = Ok {| estimated_hours := h;
                 approval_confidence := Decimal 85 2;
                 approval_timestamp := clock w |}
   | (Raise x, _) =>
       fst (predict_approval_time e approvals w)
         = Raise (HTTPException 500 "Failed to predict approval time") /\
       logs (snd (predict_approval_time e approvals w))
         = (logs w ++ [(ERROR, ("Approval time prediction error: " ++ str x)%string)])%list
   end).
Proof.
  run_other.
  destruct (predict_category e (prov w)) as [[c|x1] p1];
    destruct (analyze_expense e history (prov w)) as [[a|x2] p2];
    destruct (calculate_risk_score e policies (prov w)) as [[s|x3] p3];
    destruct (svc_predict_approval_time e approvals (prov w)) as [[h|x4] p4];
    simpl; repeat split; reflexivity.
Qed.

(** Membership in the alternatives, up to a final newline. *)
Lemma analysis_type_matches_spec s :
  analysis_type_matches s = true <->
  exists a, a ∈ analysis_type_alternatives /\ (s = a \/ s = (a ++ newline)%string).
Proof.
  unfold analysis_type_matches, analysis_type_alternatives; simpl.
  rewrite !orb_true_iff, !String.eqb_eq. split.
  - intros [[?|?] | [[?|?] | [[?|?] | ?]]]; try done; eexists; (split; [|eauto]);
      set_solver.
  - intros (a & Ha & Hs).
    rewrite !elem_of_cons, elem_of_nil in Ha.
    destruct Ha as [->|[->|[->|[]]]]; destruct Hs as [->| ->]; tauto.
Qed.


(** X15: tagging is all or nothing.  The answer carries tags and metadata
    exactly when both provider calls return, with the fixed confidence 0.9
    and the time.  When the tags cannot be generated, the metadata provider
    is not called at all: the providers are left in the state in which
    tagging left them.  When the metadata cannot be extracted, the tags that
    were generated are dropped and the caller gets status 500. *)
Theorem auto_tag_all_or_nothing e w :
  match generate_tags e (prov w) with
  | (Raise _, p1) =>
      fst (auto_tag_expense e w) = Raise (HTTPException 500 "Failed to generate tags") /\
      prov (snd (auto_tag_expense e w)) = p1
  | (Ok found, p1) =>
      match extract_metadata e p1 with
      | (Raise _, p2) =>
          fst (auto_tag_expense e w) = Raise (HTTPException 500 "Failed to generate tags") /\
          prov (snd (auto_tag_expense e w)) = p2
      | (Ok extracted, p2) =>
          fst (auto_tag_expense e w)
            = Ok {| tags := found; metadata := extracted;
                    tag_confidence := Decimal 9 1; tag_timestamp := clock w |} /\
          prov (snd (auto_tag_expense e w)) = p2
      end
  end.
Proof.
  run_other.
  destruct (generate_tags e (prov w)) as [[found|x1] p1]; simpl; [|done].
  destruct (extract_metadata e p1) as [[extracted|x2] p2]; simpl; done.
Qed.


End OtherHandlerFacts.

(** ** The theorems at work on the concrete deployment *)


Lemma unanswerable_frame_ends_session_witness :
  websocket_real_time_analysis (svc := Demo.svc)
    ([TextJson Demo.taxi] ++ TextJson DemoAnalysis.blank :: [TextJson Demo.taxi]) Demo.w0
  = websocket_real_time_analysis (svc := Demo.svc)
      ([TextJson Demo.taxi] ++ [TextJson DemoAnalysis.blank]) Demo.w0.
Proof.
  apply (unanswerable_frame_ends_session (svc := Demo.svc)
           [TextJson Demo.taxi] (TextJson DemoAnalysis.blank) [TextJson Demo.taxi]
           Demo.w0).
  right; right; right. eexists _, _.
  split; [reflexivity|]. split; [reflexivity|]. left. intros p. reflexivity.
Defined.

Lemma demo_retraining_completes :
  reachable (svc := Demo.svc) Demo.w_retraining DemoAnalysis.w_retrained.
Proof.
  eapply rtc_l; [|apply rtc_refl].
  eapply (step_complete 0%nat); reflexivity.
Qed.

Lemma tasks_only_advance_witness :
  exists t',
    tasks DemoAnalysis.w_retrained !! 0%nat = Some t' /\
    training_data t' = Demo.td_categorization /\
    (stage_rank (Awaiting Categorization) <= stage_rank (at_stage t'))%nat.
Proof.
  destruct (tasks_only_advance (svc := Demo.svc)
              Demo.w_retraining DemoAnalysis.w_retrained 0%nat
              (Task Demo.td_categorization (Awaiting Categorization))
              demo_retraining_completes eq_refl) as (t' & H1 & H2 & H3 & _).
  exists t'. split; [exact H1 | split; [exact H2 | exact H3]].
Defined.

Lemma tasks_await_named_capabilities_witness :
  Forall awaits_named (tasks Demo.w_retraining).
Proof.
  apply (tasks_await_named_capabilities (svc := Demo.svc)
           Demo.w0 Demo.w_retraining demo_reaches_retraining).
  constructor.
Defined.

Lemma submitted_task_runs_to_completion_witness :
  reachable (svc := Demo.svc) Demo.w0
    (set_tasks (tasks Demo.w0 ++ [Task Demo.td_categorization Finished])
       (snd (retrain_models_background (svc := Demo.svc) Demo.td_categorization
               (snd (retrain_models Demo.td_categorization Demo.w0))))).
Proof.
  apply (submitted_task_runs_to_completion (svc := Demo.svc)
           Demo.td_categorization Demo.w0).
  intros t' Ht'. simpl in Ht'. by apply elem_of_nil in Ht'.
Defined.

Lemma background_retrains_targets_witness :
  events_since Demo.w0
    (snd (retrain_models_background (svc := Demo.svc) Demo.td_with_unknown Demo.w0))
    = map (fun c => ECall (OpRetrain c)) (targets Demo.td_with_unknown).
Proof.
  apply (background_retrains_targets (svc := Demo.svc) Demo.td_with_unknown Demo.w0).
  intros [] ex p H; vm_compute in H; try discriminate H.
  injection H as <-. reflexivity.
Defined.




